(** * Window Solution Simulator: catalog, selection cursor and step machine

    A shallow embedding of the application component ([App],
    [ConfigurationPanel], [AdminPanel]) together with the types and the seed
    catalog it works on.  React state setters are modelled as logged
    effects on an explicit [Session]; a handler is a program in a small
    state-and-exception monad that reads the values its closure captured at
    render time and issues setter calls and remote requests in source
    order. *)

From Stdlib Require Import String Ascii List Bool Arith NArith Decimal DecimalString Lia.
From Stdlib Require Import DecimalN.
Import ListNotations.
Local Open Scope string_scope.
Local Open Scope list_scope.

(** ** types.ts *)

Inductive ProductType := VerticalBlinds | RollerBlinds | Curtains.
Inductive CurtainStyle := SWave | PinchPleat.
Inductive SimulationMode := Manual | Auto.

(** The string value behind each enum member. *)
Definition ProductType_value (t : ProductType) : string :=
  match t with
  | VerticalBlinds => "Vertical Blinds"
  | RollerBlinds => "Roller Blinds"
  | Curtains => "Curtains"
  end.

Module Color.
Record t := mk { id : string; name : string; hex : string }.
End Color.

Module Product.
Record t := mk { id : string; name : string; colors : list Color.t }.
End Product.

Module FabricCompany.
Record t := mk { id : string; name : string; products : list Product.t }.
End FabricCompany.

Record ManualSelection := mkSelection
  { fabricCompanyId : string; productId : string; colorId : string }.

Record SimulationResult := mkResult
  { dayImage : option string;
    nightImage : option string;
    recommendationText : option string }.

(** [Record<ProductType, FabricCompany[]>]: one bucket per enum member. *)
Record FabricData := mkFabricData
  { verticalBlinds : list FabricCompany.t;
    rollerBlinds : list FabricCompany.t;
    curtains : list FabricCompany.t }.

(** [fabricData[type]] *)
Definition bucket (fd : FabricData) (t : ProductType) : list FabricCompany.t :=
  match t with
  | VerticalBlinds => verticalBlinds fd
  | RollerBlinds => rollerBlinds fd
  | Curtains => curtains fd
  end.

(** [newData[type] = l] on a copy of [fd]. *)
Definition set_bucket (fd : FabricData) (t : ProductType)
    (l : list FabricCompany.t) : FabricData :=
  match t with
  | VerticalBlinds => mkFabricData l (rollerBlinds fd) (curtains fd)
  | RollerBlinds => mkFabricData (verticalBlinds fd) l (curtains fd)
  | Curtains => mkFabricData (verticalBlinds fd) (rollerBlinds fd) l
  end.

(** ** constants.ts *)

Definition MOCK_DATA : FabricData :=
  {| verticalBlinds :=
       [ FabricCompany.mk "vb-fc1" "Sun-Kissed Fabrics"
           [ Product.mk "vb-p1" "Classic Vinyl"
               [ Color.mk "vb-c1" "Alabaster White" "#F0EBE3";
                 Color.mk "vb-c2" "Urban Grey" "#A9A9A9";
                 Color.mk "vb-c3" "Coastal Beige" "#EED9C4" ];
             Product.mk "vb-p2" "Textured Weave"
               [ Color.mk "vb-c4" "Oatmeal" "#D2B48C";
                 Color.mk "vb-c5" "Charcoal" "#36454F" ] ] ];
     rollerBlinds :=
       [ FabricCompany.mk "rb-fc1" "Modern Shade Co."
           [ Product.mk "rb-p1" "Blackout Pro"
               [ Color.mk "rb-c1" "Midnight Blue" "#003366";
                 Color.mk "rb-c2" "Pure White" "#FFFFFF";
                 Color.mk "rb-c3" "Slate Grey" "#708090" ];
             Product.mk "rb-p2" "Light-Filtering Linen"
               [ Color.mk "rb-c4" "Natural Linen" "#FAF0E6";
                 Color.mk "rb-c5" "Seafoam Green" "#93E9BE" ] ];
         FabricCompany.mk "rb-fc2" "Eco Weaves"
           [ Product.mk "rb-p3" "Recycled Fiber"
               [ Color.mk "rb-c6" "Earth Brown" "#5C4033";
                 Color.mk "rb-c7" "Forest Green" "#228B22" ] ] ];
     curtains :=
       [ FabricCompany.mk "c-fc1" "Drapery Dreams"
           [ Product.mk "c-p1" "Velvet Luxe"
               [ Color.mk "c-c1" "Ruby Red" "#9B111E";
                 Color.mk "c-c2" "Emerald Green" "#50C878";
                 Color.mk "c-c3" "Royal Purple" "#7851A9" ];
             Product.mk "c-p2" "Sheer Elegance"
               [ Color.mk "c-c4" "Ivory Sheer" "#FFFFF0";
                 Color.mk "c-c5" "Champagne Glow" "#F7E7CE" ] ] ] |}.

(** ** JavaScript values the handlers rely on *)

(** What a handler can throw: the engine's [TypeError] for a property read
    on [undefined] (it records the property), or an [Error] object built
    with a message. *)
Inductive Exn :=
| TypeError (reading : string)
| Error (msg : string).

(** [e.message] *)
Definition message (e : Exn) : string :=
  match e with
  | TypeError p => "Cannot read properties of undefined (reading '" ++ p ++ "')"
  | Error m => m
  end.

Inductive Res (A : Type) :=
| Ok (a : A)
| Throw (e : Exn).
Arguments Ok {A} a.
Arguments Throw {A} e.

(** [Array.prototype.find]: the first element satisfying the predicate, or
    [undefined]. *)
Definition find {A} (f : A -> bool) (l : list A) : option A := List.find f l.

(** [l[0]] *)
Definition first {A} (l : list A) : option A := nth_error l 0.

(** [l.push(x)] on a fresh copy. *)
Definition push {A} (l : list A) (x : A) : list A := l ++ [x].

(** [o.p] where [o] may be [undefined]. *)
Definition read {A B} (o : option A) (p : string) (get : A -> B) : Res B :=
  match o with
  | Some a => Ok (get a)
  | None => Throw (TypeError p)
  end.

(** [!s] for a string or [null]: [prompt] gives [null] on cancel. *)
Definition falsy (o : option string) : bool :=
  match o with
  | None => true
  | Some s => String.eqb s ""
  end.

(** Template literal [`${prefix}${Date.now()}`]. *)
Definition stamp (prefix : string) (now : N) : string :=
  prefix ++ NilEmpty.string_of_uint (N.to_uint now).

(** ** App.tsx: component state *)

Inductive AppStep :=
| upload | select_product | configure | simulate | result | admin.

Inductive ResultView := day | night | original.

Module UploadedFile.
Record t := mk { base64 : string; name : string; type : string }.
End UploadedFile.

(** The [useState] cells of [App].  The catalog [fabricData] is one of
    them. *)
Record Session := mkSession
  { step : AppStep;
    uploadedFile : option UploadedFile.t;
    productType : option ProductType;
    simulationMode : option SimulationMode;
    manualSelection : option ManualSelection;
    simulationResult : option SimulationResult;
    isLoading : bool;
    loadingText : string;
    error : option string;
    activeResultView : ResultView;
    fabricData : FabricData;
    curtainStyle : CurtainStyle }.

(** The [useState] cells of [AdminPanel]. *)
Record AdminPanelState := mkAdminPanel
  { activeTab : ProductType; newItemName : string }.

(** [useState] initial values. *)
Definition initialSession : Session :=
  mkSession upload None None None None None false "" None day MOCK_DATA SWave.

Definition initialAdminPanel : AdminPanelState :=
  mkAdminPanel VerticalBlinds "".

(** ** services/geminiService: the remote collaborator as seen by [App] *)

Inductive Request :=
| GenerateRecommendation
    (imageBase64 imageMimeType : string) (productType : ProductType)
| SimulateWindowCovering
    (imageBase64 imageMimeType : string) (productType : ProductType)
    (colorName productName : string) (isDay : bool)
    (style : option CurtainStyle).

(** A promise either resolves with a payload or rejects with an [Error]
    carrying a message. *)
Inductive Outcome :=
| Resolved (payload : string)
| Rejected (msg : string).

(** ** services/geminiService.ts

    The two exported functions wrap one call to the generative model.  The
    model's reply is opaque: it either fails or answers with a text and a
    list of parts, each of which may carry inline image data.  Whatever
    goes wrong inside the [try] block is caught and replaced by one fixed
    message per function.  [simulateWindowCovering] declares six
    parameters; the curtain style [App] passes as a seventh is not read. *)

Inductive AiReply :=
| AiFails
| AiResponds (text : string) (parts : list (option string)).

(** [for (const part of parts) if (part.inlineData) return part.inlineData.data] *)
Fixpoint firstInlineData (parts : list (option string)) : option string :=
  match parts with
  | [] => None
  | Some data :: _ => Some data
  | None :: rest => firstInlineData rest
  end.

Definition geminiService (ai : Request -> AiReply) (r : Request) : Outcome :=
  match r with
  | GenerateRecommendation _ _ _ =>
      match ai r with
      | AiResponds text _ => Resolved text
      | AiFails =>
          Rejected "Failed to get a recommendation from the AI. Please try again."
      end
  | SimulateWindowCovering _ _ _ _ _ isDay _ =>
      let failure :=
        Rejected ("Failed to generate the " ++ (if isDay then "day" else "night")
                  ++ " simulation. The AI might be unable to process this image.") in
      match ai r with
      | AiResponds _ parts =>
          match firstInlineData parts with
          | Some data => Resolved data
          | None => failure
          end
      | AiFails => failure
      end
  end.

(** ** Effects and the handler monad *)

Inductive Effect :=
| SetStep (s : AppStep)
| SetUploadedFile (f : option UploadedFile.t)
| SetProductType (t : option ProductType)
| SetSimulationMode (m : option SimulationMode)
| SetManualSelection (sel : option ManualSelection)
| SetSimulationResult (r : option SimulationResult)
| SetIsLoading (b : bool)
| SetLoadingText (s : string)
| SetError (e : option string)
| SetActiveResultView (v : ResultView)
| SetFabricData (d : FabricData)
| SetCurtainStyle (c : CurtainStyle)
| SetActiveTab (t : ProductType)
| SetNewItemName (s : string)
| Issued (r : Request)
| Settled (r : Request) (o : Outcome).

Record World := mkWorld
  { session : Session;
    adminPanel : AdminPanelState;
    trace : list Effect }.

(** What a setter does to the cell it owns; every other cell is copied. *)
Definition apply_session (e : Effect) (s : Session) : Session :=
  match e with
  | SetStep x =>
      mkSession x (uploadedFile s) (productType s) (simulationMode s)
        (manualSelection s) (simulationResult s) (isLoading s)
        (loadingText s) (error s) (activeResultView s) (fabricData s)
        (curtainStyle s)
  | SetUploadedFile x =>
      mkSession (step s) x (productType s) (simulationMode s)
        (manualSelection s) (simulationResult s) (isLoading s)
        (loadingText s) (error s) (activeResultView s) (fabricData s)
        (curtainStyle s)
  | SetProductType x =>
      mkSession (step s) (uploadedFile s) x (simulationMode s)
        (manualSelection s) (simulationResult s) (isLoading s)
        (loadingText s) (error s) (activeResultView s) (fabricData s)
        (curtainStyle s)
  | SetSimulationMode x =>
      mkSession (step s) (uploadedFile s) (productType s) x
        (manualSelection s) (simulationResult s) (isLoading s)
        (loadingText s) (error s) (activeResultView s) (fabricData s)
        (curtainStyle s)
  | SetManualSelection x =>
      mkSession (step s) (uploadedFile s) (productType s) (simulationMode s)
        x (simulationResult s) (isLoading s) (loadingText s) (error s)
        (activeResultView s) (fabricData s) (curtainStyle s)
  | SetSimulationResult x =>
      mkSession (step s) (uploadedFile s) (productType s) (simulationMode s)
        (manualSelection s) x (isLoading s) (loadingText s) (error s)
        (activeResultView s) (fabricData s) (curtainStyle s)
  | SetIsLoading x =>
      mkSession (step s) (uploadedFile s) (productType s) (simulationMode s)
        (manualSelection s) (simulationResult s) x (loadingText s) (error s)
        (activeResultView s) (fabricData s) (curtainStyle s)
  | SetLoadingText x =>
      mkSession (step s) (uploadedFile s) (productType s) (simulationMode s)
        (manualSelection s) (simulationResult s) (isLoading s) x (error s)
        (activeResultView s) (fabricData s) (curtainStyle s)
  | SetError x =>
      mkSession (step s) (uploadedFile s) (productType s) (simulationMode s)
        (manualSelection s) (simulationResult s) (isLoading s)
        (loadingText s) x (activeResultView s) (fabricData s)
        (curtainStyle s)
  | SetActiveResultView x =>
      mkSession (step s) (uploadedFile s) (productType s) (simulationMode s)
        (manualSelection s) (simulationResult s) (isLoading s)
        (loadingText s) (error s) x (fabricData s) (curtainStyle s)
  | SetFabricData x =>
      mkSession (step s) (uploadedFile s) (productType s) (simulationMode s)
        (manualSelection s) (simulationResult s) (isLoading s)
        (loadingText s) (error s) (activeResultView s) x (curtainStyle s)
  | SetCurtainStyle x =>
      mkSession (step s) (uploadedFile s) (productType s) (simulationMode s)
        (manualSelection s) (simulationResult s) (isLoading s)
        (loadingText s) (error s) (activeResultView s) (fabricData s) x
  | SetActiveTab _ | SetNewItemName _ | Issued _ | Settled _ _ => s
  end.

Definition apply_admin (e : Effect) (a : AdminPanelState) : AdminPanelState :=
  match e with
  | SetActiveTab t => mkAdminPanel t (newItemName a)
  | SetNewItemName n => mkAdminPanel (activeTab a) n
  | _ => a
  end.

Definition M (A : Type) : Type := World -> Res A * World.

Class Monad (m : Type -> Type) :=
  { ret : forall A, A -> m A;
    bind : forall A B, m A -> (A -> m B) -> m B }.
Arguments ret {m _ A} a.
Arguments bind {m _ A B} c k.

#[global] Instance Monad_Res : Monad Res :=
  {| ret := fun A a => Ok a;
     bind := fun A B c k => match c with Ok a => k a | Throw e => Throw e end |}.

#[global] Instance Monad_M : Monad M :=
  {| ret := fun A a w => (Ok a, w);
     bind := fun A B c k w =>
       match c w with
       | (Ok a, w') => k a w'
       | (Throw e, w') => (Throw e, w')
       end |}.

Declare Scope js_scope.
Delimit Scope js_scope with js.
Notation "x <- c ;; k" := (bind c (fun x => k))
  (at level 61, c at next level, right associativity) : js_scope.
Notation "c ;; k" := (bind c (fun _ => k))
  (at level 61, right associativity) : js_scope.
Local Open Scope js_scope.

(** Perform one effect: update the owning cell and log it. *)
Definition emit (e : Effect) : M unit :=
  fun w =>
    (Ok tt,
     mkWorld (apply_session e (session w)) (apply_admin e (adminPanel w))
             (trace w ++ [e])).

(** A pure computation that may throw, run inside a handler. *)
Definition lift {A} (r : Res A) : M A := fun w => (r, w).

(** [try { body } catch (e) { handler(e) } finally { fin }] *)
Definition try_catch_finally (body : M unit) (handler : Exn -> M unit)
    (fin : M unit) : M unit :=
  fun w =>
    let '(r, w1) :=
      match body w with
      | (Ok _, w') => (Ok tt, w')
      | (Throw e, w') => handler e w'
      end in
    match fin w1 with
    | (Ok _, w2) => (r, w2)
    | (Throw e, w2) => (Throw e, w2)
    end.

Definition setStep s := emit (SetStep s).
Definition setUploadedFile f := emit (SetUploadedFile f).
Definition setProductType t := emit (SetProductType t).
Definition setSimulationMode m := emit (SetSimulationMode m).
Definition setManualSelection s := emit (SetManualSelection s).
Definition setSimulationResult r := emit (SetSimulationResult r).
Definition setIsLoading b := emit (SetIsLoading b).
Definition setLoadingText s := emit (SetLoadingText s).
Definition setError e := emit (SetError e).
Definition setActiveResultView v := emit (SetActiveResultView v).
Definition setFabricData d := emit (SetFabricData d).
Definition setCurtainStyle c := emit (SetCurtainStyle c).
Definition setActiveTab t := emit (SetActiveTab t).
Definition setNewItemName n := emit (SetNewItemName n).

(** Run a handler from a rendered state with an empty log. *)
Definition run {A} (m : M A) (s : Session) (a : AdminPanelState)
  : Res A * World := m (mkWorld s a []).

Definition final {A} (m : M A) (s : Session) : Session :=
  session (snd (run m s initialAdminPanel)).

Definition outcome {A} (m : M A) (s : Session) : Res A :=
  fst (run m s initialAdminPanel).

Definition effects {A} (m : M A) (s : Session) : list Effect :=
  trace (snd (run m s initialAdminPanel)).

(** ** App.tsx: handlers of [App]

    Each handler takes the session [s] its closure captured. *)

Definition handleReset : M unit :=
  setStep upload;;
  setUploadedFile None;;
  setProductType None;;
  setSimulationMode None;;
  setManualSelection None;;
  setSimulationResult None;;
  setIsLoading false;;
  setError None.

Definition handleBack (s : Session) : M unit :=
  match step s with
  | result => setStep configure
  | configure => setStep select_product
  | select_product | admin => setStep upload
  | upload | simulate => ret tt
  end.

Definition handleImageUpload (file : UploadedFile.t) : M unit :=
  setUploadedFile (Some file);;
  setStep select_product.

Definition handleProductSelect (s : Session) (type : ProductType) : M unit :=
  setProductType (Some type);;
  setStep configure;;
  let companies := bucket (fabricData s) type in
  match companies with
  | initialCompany :: _ =>
      let initialProduct := first (FabricCompany.products initialCompany) in
      colors <- lift (read initialProduct "colors" Product.colors);;
      let initialColor := first colors in
      pid <- lift (read initialProduct "id" Product.id);;
      cid <- lift (read initialColor "id" Color.id);;
      setManualSelection
        (Some (mkSelection (FabricCompany.id initialCompany) pid cid))
  | [] =>
      setManualSelection None
  end.

Section Orchestrator.

(** How the remote collaborator settles each request. *)
Variable service : Request -> Outcome.

(** [await call]: the request goes out, the handler resumes when it has
    settled, with the payload or with the rejection thrown. *)
Definition await (r : Request) : M string :=
  emit (Issued r);;
  emit (Settled r (service r));;
  lift (match service r with
        | Resolved payload => Ok payload
        | Rejected msg => Throw (Error msg)
        end).

Definition runManualSimulation (s : Session) : M unit :=
  match uploadedFile s, productType s, manualSelection s with
  | Some file, Some type, Some sel =>
      setIsLoading true;;
      setStep simulate;;
      setSimulationResult None;;
      let company :=
        find (fun fc => FabricCompany.id fc =? fabricCompanyId sel)
             (bucket (fabricData s) type) in
      let product :=
        match company with
        | Some fc =>
            find (fun p => Product.id p =? productId sel)
                 (FabricCompany.products fc)
        | None => None
        end in
      let color :=
        match product with
        | Some p => find (fun c => Color.id c =? colorId sel) (Product.colors p)
        | None => None
        end in
      match color, product with
      | Some c, Some p =>
          try_catch_finally
            (setLoadingText "Simulating daytime view...";;
             dayImage <- await (SimulateWindowCovering
                 (UploadedFile.base64 file) (UploadedFile.type file) type
                 (Color.name c) (Product.name p) true
                 (Some (curtainStyle s)));;
             setLoadingText "Simulating nighttime view...";;
             nightImage <- await (SimulateWindowCovering
                 (UploadedFile.base64 file) (UploadedFile.type file) type
                 (Color.name c) (Product.name p) false
                 (Some (curtainStyle s)));;
             setSimulationResult
               (Some (mkResult (Some dayImage) (Some nightImage) None));;
             setStep result;;
             setActiveResultView day)
            (fun e =>
               setError (Some (message e));;
               setStep configure)
            (setIsLoading false)
      | _, _ =>
          setError (Some "Could not find product details.");;
          setIsLoading false;;
          setStep configure
      end
  | _, _, _ => ret tt
  end.

Definition runAutoSimulation (s : Session) : M unit :=
  match uploadedFile s, productType s with
  | Some file, Some type =>
      setIsLoading true;;
      setStep simulate;;
      setSimulationResult None;;
      let style :=
        match type with
        | Curtains => Some (curtainStyle s)
        | _ => None
        end in
      try_catch_finally
        (setLoadingText "Generating AI recommendation...";;
         recommendation <- await (GenerateRecommendation
             (UploadedFile.base64 file) (UploadedFile.type file) type);;
         setLoadingText "Simulating daytime view...";;
         dayImage <- await (SimulateWindowCovering
             (UploadedFile.base64 file) (UploadedFile.type file) type
             "AI suggested color" "AI suggested style" true style);;
         setLoadingText "Simulating nighttime view...";;
         nightImage <- await (SimulateWindowCovering
             (UploadedFile.base64 file) (UploadedFile.type file) type
             "AI suggested color" "AI suggested style" false style);;
         setSimulationResult
           (Some (mkResult (Some dayImage) (Some nightImage)
                           (Some recommendation)));;
         setStep result;;
         setActiveResultView day)
        (fun e =>
           setError (Some (message e));;
           setStep configure)
        (setIsLoading false)
  | _, _ => ret tt
  end.

Definition handleModeSelect (s : Session) (mode : SimulationMode) : M unit :=
  setSimulationMode (Some mode);;
  match mode with
  | Auto => runAutoSimulation s
  | Manual => ret tt
  end.

End Orchestrator.

(** [shouldShowBackButton] and [shouldShowResetButton] of the render pass. *)
Definition step_eqb (a b : AppStep) : bool :=
  match a, b with
  | upload, upload | select_product, select_product | configure, configure
  | simulate, simulate | result, result | admin, admin => true
  | _, _ => false
  end.

Definition shouldShowBackButton (s : Session) : bool :=
  negb (step_eqb (step s) upload) && negb (isLoading s).

Definition shouldShowResetButton (s : Session) : bool :=
  negb (step_eqb (step s) upload) && negb (isLoading s)
  && negb (step_eqb (step s) admin).

(** The clickable elements [App] itself renders around the step content,
    and what each click runs.  The header (title and cog) is rendered
    unconditionally; the alert's dismiss button with the alert. *)
Inductive Control :=
| BackButton | StartOverButton | HeaderTitle | HeaderCog | AlertDismiss.

Definition rendered (s : Session) (c : Control) : bool :=
  match c with
  | BackButton => shouldShowBackButton s
  | StartOverButton => shouldShowResetButton s
  | HeaderTitle | HeaderCog => true
  | AlertDismiss =>
      match error s with
      | Some e => negb (e =? "")
      | None => false
      end
  end.

Definition onClick (s : Session) (c : Control) : M unit :=
  match c with
  | BackButton => handleBack s
  | StartOverButton | HeaderTitle => handleReset
  | HeaderCog => setStep admin
  | AlertDismiss => setError None
  end.

(** ** App.tsx: [ConfigurationPanel] *)

(** [keyof ManualSelection] *)
Inductive SelectionKey := KFabricCompanyId | KProductId | KColorId.

(** [{ ...manualSelection, [key]: value }] *)
Definition spread (sel : ManualSelection) (key : SelectionKey)
    (value : string) : ManualSelection :=
  match key with
  | KFabricCompanyId => mkSelection value (productId sel) (colorId sel)
  | KProductId => mkSelection (fabricCompanyId sel) value (colorId sel)
  | KColorId => mkSelection (fabricCompanyId sel) (productId sel) value
  end.

Section ConfigurationPanel.

(** Props of the panel. *)
Variable fabricData : FabricData.
Variable productType : ProductType.
Variable manualSelection : ManualSelection.

Definition companies : list FabricCompany.t := bucket fabricData productType.

Definition selectedCompany : option FabricCompany.t :=
  find (fun c => FabricCompany.id c =? fabricCompanyId manualSelection)
       companies.

Definition selectedProduct : option Product.t :=
  match selectedCompany with
  | Some c =>
      find (fun p => Product.id p =? productId manualSelection)
           (FabricCompany.products c)
  | None => None
  end.

(** The value [handleSelectionChange] builds before handing it to
    [setManualSelection]. *)
Definition newSelection (key : SelectionKey) (value : string)
  : Res ManualSelection :=
  let sel0 := spread manualSelection key value in
  sel1 <-
    match key with
    | KFabricCompanyId =>
        let newCompany :=
          find (fun c => FabricCompany.id c =? value) companies in
        products <- read newCompany "products" FabricCompany.products;;
        pid <- read (first products) "id" Product.id;;
        colors <- read (first products) "colors" Product.colors;;
        cid <- read (first colors) "id" Color.id;;
        ret (mkSelection (fabricCompanyId sel0) pid cid)
    | _ => ret sel0
    end;;
  match key with
  | KProductId =>
      products <- read selectedCompany "products" FabricCompany.products;;
      let newProduct := find (fun p => Product.id p =? value) products in
      colors <- read newProduct "colors" Product.colors;;
      cid <- read (first colors) "id" Color.id;;
      ret (mkSelection (fabricCompanyId sel1) (productId sel1) cid)
  | _ => ret sel1
  end.

Definition handleSelectionChange (key : SelectionKey) (value : string)
  : M unit :=
  sel <- lift (newSelection key value);;
  setManualSelection (Some sel).

End ConfigurationPanel.

(** The selection is a root-to-leaf path of the bucket: each id is found
    under its parent by the same [find] the panel and the run use. *)
Definition resolves (fd : FabricData) (t : ProductType)
    (sel : ManualSelection) : bool :=
  match selectedProduct fd t sel with
  | Some p =>
      match find (fun c => Color.id c =? colorId sel) (Product.colors p) with
      | Some _ => true
      | None => false
      end
  | None => false
  end.

(** ** App.tsx: [AdminPanel] *)

(** The array with its first element satisfying [f] mutated by [g]: what
    [l.find(f)] followed by an in-place update of the found object leaves
    in [l]. *)
Fixpoint mutate_found {A} (f : A -> bool) (g : A -> A) (l : list A) : list A :=
  match l with
  | [] => []
  | x :: r => if f x then g x :: r else x :: mutate_found f g r
  end.

Section AdminPanel.

(** [String.prototype.trim], left abstract. *)
Variable trim : string -> string.

(** Props and component state at render time. *)
Variable fabricData : FabricData.
Variable a : AdminPanelState.

Definition handleAddCompany (now : N) : M unit :=
  if trim (newItemName a) =? "" then ret tt
  else
    let newCompany :=
      FabricCompany.mk (stamp "fc-" now) (newItemName a) [] in
    let newData :=
      set_bucket fabricData (activeTab a)
        (push (bucket fabricData (activeTab a)) newCompany) in
    setFabricData newData;;
    setNewItemName "".

Definition handleAddProduct (productName : option string) (now : N)
    (companyId : string) : M unit :=
  match productName with
  | Some name =>
      if name =? "" then ret tt
      else
        let newProduct := Product.mk (stamp "p-" now) name [] in
        let isCompany c := FabricCompany.id c =? companyId in
        let company := find isCompany (bucket fabricData (activeTab a)) in
        _ <- lift (read company "products" FabricCompany.products);;
        let newData :=
          set_bucket fabricData (activeTab a)
            (mutate_found isCompany
               (fun c =>
                  FabricCompany.mk (FabricCompany.id c) (FabricCompany.name c)
                    (push (FabricCompany.products c) newProduct))
               (bucket fabricData (activeTab a))) in
        setFabricData newData
  | None => ret tt
  end.

Definition handleAddColor (colorName colorHex : option string) (now : N)
    (companyId productId : string) : M unit :=
  if falsy colorName then ret tt
  else if falsy colorHex then ret tt
  else
    match colorName, colorHex with
    | Some name, Some hex =>
        let newColor := Color.mk (stamp "c-" now) name hex in
        let isCompany c := FabricCompany.id c =? companyId in
        let isProduct p := Product.id p =? productId in
        let company := find isCompany (bucket fabricData (activeTab a)) in
        products <- lift (read company "products" FabricCompany.products);;
        let product := find isProduct products in
        _ <- lift (read product "colors" Product.colors);;
        let newData :=
          set_bucket fabricData (activeTab a)
            (mutate_found isCompany
               (fun c =>
                  FabricCompany.mk (FabricCompany.id c) (FabricCompany.name c)
                    (mutate_found isProduct
                       (fun p =>
                          Product.mk (Product.id p) (Product.name p)
                            (push (Product.colors p) newColor))
                       (FabricCompany.products c)))
               (bucket fabricData (activeTab a))) in
        setFabricData newData
    | _, _ => ret tt
    end.

End AdminPanel.

(** ** Reading a handler's log *)

(** The requests sent, in order. *)
Definition issued (tr : list Effect) : list Request :=
  flat_map (fun e => match e with Issued r => [r] | _ => [] end) tr.

(** The loading-stage labels shown, in order. *)
Definition labels (tr : list Effect) : list string :=
  flat_map (fun e => match e with SetLoadingText t => [t] | _ => [] end) tr.

(** Apply the setters of a log, in order, to a session. *)
Definition replay (tr : list Effect) (s : Session) : Session :=
  fold_left (fun s e => apply_session e s) tr s.

Inductive RequestKind := Recommendation | DayComposite | NightComposite.

Definition kind (r : Request) : RequestKind :=
  match r with
  | GenerateRecommendation _ _ _ => Recommendation
  | SimulateWindowCovering _ _ _ _ _ true _ => DayComposite
  | SimulateWindowCovering _ _ _ _ _ false _ => NightComposite
  end.

(** The remote channel as a log is read left to right: nothing
    outstanding, one request outstanding, or a request has been rejected. *)
Inductive Channel := Free | Waiting (r : Request) | Aborted.

(** A log is sequential when every request goes out on a free channel (no
    request outstanding, none rejected so far) and every settlement is that
    of the outstanding request. *)
Fixpoint sequential (c : Channel) (tr : list Effect) : Prop :=
  match tr with
  | [] => match c with Waiting _ => False | _ => True end
  | Issued r :: rest => c = Free /\ sequential (Waiting r) rest
  | Settled r o :: rest =>
      c = Waiting r /\
      sequential (match o with Resolved _ => Free | Rejected _ => Aborted end)
                 rest
  | _ :: rest => sequential c rest
  end.

(** The composite request of a manual run. *)
Definition manualRequest (s : Session) (file : UploadedFile.t)
    (type : ProductType) (c : Color.t) (p : Product.t) (isDay : bool)
  : Request :=
  SimulateWindowCovering (UploadedFile.base64 file) (UploadedFile.type file)
    type (Color.name c) (Product.name p) isDay (Some (curtainStyle s)).

(** The requests of an automatic run. *)
Definition autoRecommendation (file : UploadedFile.t) (type : ProductType)
  : Request :=
  GenerateRecommendation (UploadedFile.base64 file) (UploadedFile.type file)
    type.

Definition autoRequest (s : Session) (file : UploadedFile.t)
    (type : ProductType) (isDay : bool) : Request :=
  SimulateWindowCovering (UploadedFile.base64 file) (UploadedFile.type file)
    type "AI suggested color" "AI suggested style" isDay
    (match type with Curtains => Some (curtainStyle s) | _ => None end).

(** A session on the configure screen, ready for a run. *)
Definition configured : Session :=
  mkSession configure
    (Some (UploadedFile.mk "aGVsbG8=" "window.jpg" "image/jpeg"))
    (Some Curtains) None
    (Some (mkSelection "c-fc1" "c-p1" "c-c1"))
    None false "" None day MOCK_DATA SWave.

(** The same session with a color id that no color of the selected
    product carries, and the result of an earlier run still stored. *)
Definition stale_selection : Session :=
  mkSession configure
    (Some (UploadedFile.mk "aGVsbG8=" "window.jpg" "image/jpeg"))
    (Some Curtains) None
    (Some (mkSelection "c-fc1" "c-p1" "rb-c7"))
    (Some (mkResult (Some "ZGF5") (Some "bmlnaHQ=") None))
    false "" None day MOCK_DATA SWave.

(** The configured session while a run is waiting for the service. *)
Definition mid_run : Session :=
  apply_session (SetLoadingText "Simulating daytime view...")
    (apply_session (SetStep simulate)
       (apply_session (SetIsLoading true) configured)).

(** [company.products.find(...)] under [bucket.find(...)], as the add
    handlers of the admin panel look a product up. *)
Definition findProduct (l : list FabricCompany.t)
    (companyId productId : string) : option Product.t :=
  match find (fun c => FabricCompany.id c =? companyId) l with
  | Some c =>
      find (fun p => Product.id p =? productId) (FabricCompany.products c)
  | None => None
  end.

(** Model replies: every call answers with an image part; the night
    composite fails; the day composite fails. *)
Definition ai_answers (r : Request) : AiReply :=
  AiResponds "Soft linen tones would suit this room." [None; Some "aW1n"].

Definition ai_night_fails (r : Request) : AiReply :=
  match kind r with
  | NightComposite => AiFails
  | _ => ai_answers r
  end.

Definition ai_day_fails (r : Request) : AiReply :=
  match kind r with
  | DayComposite => AiFails
  | _ => ai_answers r
  end.

(** Every manual run has one of five logs. *)
Inductive ManualLog (service : Request -> Outcome) (s : Session)
  : list Effect -> Prop :=
| manual_not_started :
    uploadedFile s = None \/ productType s = None \/ manualSelection s = None ->
    ManualLog service s []
| manual_unresolved file type sel :
    uploadedFile s = Some file -> productType s = Some type ->
    manualSelection s = Some sel ->
    resolves (fabricData s) type sel = false ->
    ManualLog service s
      [SetIsLoading true; SetStep simulate; SetSimulationResult None;
       SetError (Some "Could not find product details.");
       SetIsLoading false; SetStep configure]
| manual_day_rejected file type c p msg :
    service (manualRequest s file type c p true) = Rejected msg ->
    ManualLog service s
      [SetIsLoading true; SetStep simulate; SetSimulationResult None;
       SetLoadingText "Simulating daytime view...";
       Issued (manualRequest s file type c p true);
       Settled (manualRequest s file type c p true) (Rejected msg);
       SetError (Some msg); SetStep configure; SetIsLoading false]
| manual_night_rejected file type c p img msg :
    service (manualRequest s file type c p true) = Resolved img ->
    service (manualRequest s file type c p false) = Rejected msg ->
    ManualLog service s
      [SetIsLoading true; SetStep simulate; SetSimulationResult None;
       SetLoadingText "Simulating daytime view...";
       Issued (manualRequest s file type c p true);
       Settled (manualRequest s file type c p true) (Resolved img);
       SetLoadingText "Simulating nighttime view...";
       Issued (manualRequest s file type c p false);
       Settled (manualRequest s file type c p false) (Rejected msg);
       SetError (Some msg); SetStep configure; SetIsLoading false]
| manual_succeeded file type c p img img' :
    service (manualRequest s file type c p true) = Resolved img ->
    service (manualRequest s file type c p false) = Resolved img' ->
    ManualLog service s
      [SetIsLoading true; SetStep simulate; SetSimulationResult None;
       SetLoadingText "Simulating daytime view...";
       Issued (manualRequest s file type c p true);
       Settled (manualRequest s file type c p true) (Resolved img);
       SetLoadingText "Simulating nighttime view...";
       Issued (manualRequest s file type c p false);
       Settled (manualRequest s file type c p false) (Resolved img');
       SetSimulationResult (Some (mkResult (Some img) (Some img') None));
       SetStep result; SetActiveResultView day; SetIsLoading false].

(** Every automatic run has one of five logs. *)
Inductive AutoLog (service : Request -> Outcome) (s : Session)
  : list Effect -> Prop :=
| auto_not_started :
    uploadedFile s = None \/ productType s = None ->
    AutoLog service s []
| auto_recommendation_rejected file type msg :
    service (autoRecommendation file type) = Rejected msg ->
    AutoLog service s
      [SetIsLoading true; SetStep simulate; SetSimulationResult None;
       SetLoadingText "Generating AI recommendation...";
       Issued (autoRecommendation file type);
       Settled (autoRecommendation file type) (Rejected msg);
       SetError (Some msg); SetStep configure; SetIsLoading false]
| auto_day_rejected file type text msg :
    service (autoRecommendation file type) = Resolved text ->
    service (autoRequest s file type true) = Rejected msg ->
    AutoLog service s
      [SetIsLoading true; SetStep simulate; SetSimulationResult None;
       SetLoadingText "Generating AI recommendation...";
       Issued (autoRecommendation file type);
       Settled (autoRecommendation file type) (Resolved text);
       SetLoadingText "Simulating daytime view...";
       Issued (autoRequest s file type true);
       Settled (autoRequest s file type true) (Rejected msg);
       SetError (Some msg); SetStep configure; SetIsLoading false]
| auto_night_rejected file type text img msg :
    service (autoRecommendation file type) = Resolved text ->
    service (autoRequest s file type true) = Resolved img ->
    service (autoRequest s file type false) = Rejected msg ->
    AutoLog service s
      [SetIsLoading true; SetStep simulate; SetSimulationResult None;
       SetLoadingText "Generating AI recommendation...";
       Issued (autoRecommendation file type);
       Settled (autoRecommendation file type) (Resolved text);
       SetLoadingText "Simulating daytime view...";
       Issued (autoRequest s file type true);
       Settled (autoRequest s file type true) (Resolved img);
       SetLoadingText "Simulating nighttime view...";
       Issued (autoRequest s file type false);
       Settled (autoRequest s file type false) (Rejected msg);
       SetError (Some msg); SetStep configure; SetIsLoading false]
| auto_succeeded file type text img img' :
    service (autoRecommendation file type) = Resolved text ->
    service (autoRequest s file type true) = Resolved img ->
    service (autoRequest s file type false) = Resolved img' ->
    AutoLog service s
      [SetIsLoading true; SetStep simulate; SetSimulationResult None;
       SetLoadingText "Generating AI recommendation...";
       Issued (autoRecommendation file type);
       Settled (autoRecommendation file type) (Resolved text);
       SetLoadingText "Simulating daytime view...";
       Issued (autoRequest s file type true);
       Settled (autoRequest s file type true) (Resolved img);
       SetLoadingText "Simulating nighttime view...";
       Issued (autoRequest s file type false);
       Settled (autoRequest s file type false) (Resolved img');
       SetSimulationResult
         (Some (mkResult (Some img) (Some img') (Some text)));
       SetStep result; SetActiveResultView day; SetIsLoading false].

(** A catalog in which the admin has added a company to the Curtains tab
    and no product under it yet. *)
Definition catalog_with_new_company : FabricData :=
  set_bucket MOCK_DATA Curtains
    (push (bucket MOCK_DATA Curtains)
          (FabricCompany.mk (stamp "fc-" 1700000000000) "Acme" [])).

(** ** Catalogs the admin panel can produce *)

(** A click on one of the three add controls of the admin panel, with the
    clock reading and the answers typed into the prompts. *)
Inductive AdminClick :=
| AddCompanyClick (now : N)
| AddProductClick (companyId : string) (productName : option string) (now : N)
| AddColorClick (companyId productId : string)
    (colorName colorHex : option string) (now : N).

Definition adminClick (trim : string -> string) (fd : FabricData)
    (a : AdminPanelState) (c : AdminClick) : M unit :=
  match c with
  | AddCompanyClick now => handleAddCompany trim fd a now
  | AddProductClick companyId productName now =>
      handleAddProduct fd a productName now companyId
  | AddColorClick companyId productId colorName colorHex now =>
      handleAddColor fd a colorName colorHex now companyId productId
  end.

(** The catalog cell after a click, whatever the handler's outcome. *)
Definition catalog_step (trim : string -> string) (fd : FabricData)
    (ac : AdminPanelState * AdminClick) : FabricData :=
  fabricData
    (final (adminClick trim fd (fst ac) (snd ac))
           (apply_session (SetFabricData fd) initialSession)).

(** [fabricData] starts as [MOCK_DATA] and only the admin panel's handlers
    call [setFabricData]: the catalogs the application can hold are those
    reached by a sequence of clicks, each in some state of the panel (tab
    and typed name). *)
Definition catalog_after (trim : string -> string)
    (clicks : list (AdminPanelState * AdminClick)) : FabricData :=
  fold_left (catalog_step trim) clicks MOCK_DATA.

(** The bucket starts with a company whose first product has a color. *)
Definition headed (l : list FabricCompany.t) : bool :=
  match l with
  | c :: _ =>
      match FabricCompany.products c with
      | p :: _ =>
          match Product.colors p with
          | _ :: _ => true
          | [] => false
          end
      | [] => false
      end
  | [] => false
  end.

Definition seeded (fd : FabricData) : bool :=
  headed (verticalBlinds fd) && headed (rollerBlinds fd)
  && headed (curtains fd).

(** A session on the result screen of a finished manual run, with the
    night view toggled. *)
Definition viewing_night : Session :=
  mkSession result
    (Some (UploadedFile.mk "aGVsbG8=" "window.jpg" "image/jpeg"))
    (Some Curtains) None
    (Some (mkSelection "c-fc1" "c-p1" "c-c1"))
    (Some (mkResult (Some "ZGF5") (Some "bmlnaHQ=") None))
    false "Simulating nighttime view..." None night MOCK_DATA PinchPleat.

(** ** App.tsx: data URLs *)

(** [s.split(sep)] for a one-character separator. *)
Fixpoint js_split (sep : ascii) (s : string) : list string :=
  match s with
  | EmptyString => [""]
  | String c r =>
      if Ascii.eqb c sep then "" :: js_split sep r
      else
        match js_split sep r with
        | h :: t => String c h :: t
        | [] => [String c ""]
        end
  end.

(** [dataUrl.split(',')[1]], the payload [handleFileChange] and
    [handleUsePhoto] keep of a data URL; [undefined] when the URL has no
    comma. *)
Definition base64Of (dataUrl : string) : option string :=
  nth_error (js_split "," dataUrl) 1.

(** [`data:${uploadedFile?.type};base64,${uploadedFile?.base64}`], the
    original image handed to the result view. *)
Definition originalImage (uploadedFile : option UploadedFile.t) : string :=
  match uploadedFile with
  | Some f =>
      "data:" ++ UploadedFile.type f ++ ";base64," ++ UploadedFile.base64 f
  | None => "data:undefined;base64,undefined"
  end.

(** The character does not occur in the string. *)
Fixpoint lacks (sep : ascii) (s : string) : bool :=
  match s with
  | EmptyString => true
  | String c r => negb (Ascii.eqb c sep) && lacks sep r
  end.

(** ** App.tsx: [ResultView] *)

(** [displayedImage]: an absent or empty image falls back to the
    original. *)
Definition displayedImage (activeView : ResultView) (r : SimulationResult)
    (originalImage : string) : string :=
  match activeView with
  | day =>
      if falsy (dayImage r) then originalImage
      else "data:image/png;base64," ++
           match dayImage r with Some d => d | None => "" end
  | night =>
      if falsy (nightImage r) then originalImage
      else "data:image/png;base64," ++
           match nightImage r with Some d => d | None => "" end
  | original => originalImage
  end.

(** Which of the three view toggles are rendered. *)
Definition toggleRendered (r : SimulationResult) (v : ResultView) : bool :=
  match v with
  | original => true
  | day => negb (falsy (dayImage r))
  | night => negb (falsy (nightImage r))
  end.

(** ** App.tsx: [renderContent] *)

(** What fills the content area. *)
Inductive Screen :=
| LoaderScreen (text : string)
| ImageUploaderScreen
| ProductSelectorScreen
| SelectTypeFirst
| ConfigurationPanelScreen (type : ProductType) (sel : ManualSelection)
| ResultViewScreen (r : option SimulationResult) (originalImage : string)
    (activeView : ResultView)
| AdminPanelScreen
| SomethingWentWrong.

Definition renderContent (s : Session) : Screen :=
  if isLoading s then LoaderScreen (loadingText s)
  else
    match step s with
    | upload => ImageUploaderScreen
    | select_product => ProductSelectorScreen
    | configure =>
        match productType s, manualSelection s with
        | Some type, Some sel => ConfigurationPanelScreen type sel
        | _, _ => SelectTypeFirst
        end
    | result =>
        ResultViewScreen (simulationResult s) (originalImage (uploadedFile s))
                         (activeResultView s)
    | admin => AdminPanelScreen
    | simulate => SomethingWentWrong
    end.

(** ** Growth of the catalog *)

(** [l'] keeps the elements of [l] in place, each possibly grown, and may
    have more after them. *)
Definition extends_list {A} (R : A -> A -> Prop) (l l' : list A) : Prop :=
  exists keep added, l' = keep ++ added /\ Forall2 R l keep.

(** Same id and name, colors only added at the end. *)
Definition product_grows (p p' : Product.t) : Prop :=
  Product.id p' = Product.id p /\ Product.name p' = Product.name p /\
  exists added, Product.colors p' = Product.colors p ++ added.

(** Same id and name, products grown in place or added at the end. *)
Definition company_grows (c c' : FabricCompany.t) : Prop :=
  FabricCompany.id c' = FabricCompany.id c /\
  FabricCompany.name c' = FabricCompany.name c /\
  extends_list product_grows (FabricCompany.products c)
               (FabricCompany.products c').

Definition catalog_grows (fd fd' : FabricData) : Prop :=
  forall t, extends_list company_grows (bucket fd t) (bucket fd' t).

(** ** The application as a transition system *)

(** [v] is among the ids listed. *)
Definition mem (v : string) (ids : list string) : bool :=
  existsb (String.eqb v) ids.

(** The values the three selection controls of the configuration panel
    can deliver: the company select lists every company of the bucket, the
    product select (rendered when the selected company is found) its
    products, the color swatches (rendered when the selected product is
    found) its colors. *)
Definition offered (fd : FabricData) (type : ProductType)
    (sel : ManualSelection) (key : SelectionKey) (value : string) : bool :=
  match key with
  | KFabricCompanyId => mem value (map FabricCompany.id (companies fd type))
  | KProductId =>
      match selectedCompany fd type sel with
      | Some c => mem value (map Product.id (FabricCompany.products c))
      | None => false
      end
  | KColorId =>
      match selectedProduct fd type sel with
      | Some p => mem value (map Color.id (Product.colors p))
      | None => false
      end
  end.

(** What the user (or a completing file read) can make happen.  A run
    event carries the way the service will settle that run's requests; an
    admin click the state of the panel's own cells at that moment. *)
Inductive UserEvent :=
| Click (c : Control)
| ImageAcquired (file : UploadedFile.t)
| ProductTypeChosen (type : ProductType)
| ModeChosen (service : Request -> Outcome) (mode : SimulationMode)
| SimulateNow (service : Request -> Outcome)
| OptionChosen (key : SelectionKey) (value : string)
| CurtainStyleChosen (style : CurtainStyle)
| ViewChosen (view : ResultView)
| AdminClicked (a : AdminPanelState) (click : AdminClick).

(** The configuration panel with its controls: rendered for a product
    type and a selection, unless the bucket is empty (then only a notice
    is). *)
Definition panelControls (s : Session)
  : option (ProductType * ManualSelection) :=
  match renderContent s with
  | ConfigurationPanelScreen type sel =>
      match companies (fabricData s) type with
      | [] => None
      | _ :: _ => Some (type, sel)
      end
  | _ => None
  end.

(** The control behind the event is on screen.  A file read completes
    whenever it does, whatever is on screen by then. *)
Definition enabled (s : Session) (ev : UserEvent) : bool :=
  match ev with
  | Click c => rendered s c
  | ImageAcquired _ => true
  | ProductTypeChosen _ =>
      match renderContent s with ProductSelectorScreen => true | _ => false end
  | ModeChosen _ _ | SimulateNow _ =>
      match panelControls s with Some _ => true | None => false end
  | OptionChosen key value =>
      match panelControls s with
      | Some (type, sel) => offered (fabricData s) type sel key value
      | None => false
      end
  | CurtainStyleChosen _ =>
      match panelControls s with
      | Some (Curtains, _) => true
      | _ => false
      end
  | ViewChosen view =>
      match renderContent s with
      | ResultViewScreen (Some r) _ _ => toggleRendered r view
      | _ => false
      end
  | AdminClicked a click =>
      match renderContent s with
      | AdminPanelScreen =>
          match click with
          | AddCompanyClick _ => true
          | AddProductClick companyId _ _ =>
              mem companyId
                  (map FabricCompany.id (bucket (fabricData s) (activeTab a)))
          | AddColorClick companyId productId _ _ _ =>
              existsb
                (fun c =>
                   (FabricCompany.id c =? companyId)
                   && mem productId (map Product.id (FabricCompany.products c)))
                (bucket (fabricData s) (activeTab a))
          end
      | _ => false
      end
  end.

(** The handler wired to the event, closed over the rendered session. *)
Definition handler (trim : string -> string) (s : Session) (ev : UserEvent)
  : M unit :=
  match ev with
  | Click c => onClick s c
  | ImageAcquired file => handleImageUpload file
  | ProductTypeChosen type => handleProductSelect s type
  | ModeChosen service mode => handleModeSelect service s mode
  | SimulateNow service => runManualSimulation service s
  | OptionChosen key value =>
      match productType s, manualSelection s with
      | Some type, Some sel =>
          handleSelectionChange (fabricData s) type sel key value
      | _, _ => ret tt
      end
  | CurtainStyleChosen style => setCurtainStyle style
  | ViewChosen view => setActiveResultView view
  | AdminClicked a click => adminClick trim (fabricData s) a click
  end.

Definition dispatch (trim : string -> string) (s : Session) (ev : UserEvent)
  : M unit :=
  if enabled s ev then handler trim s ev else ret tt.

(** A log up to and including its first request, and what is left for
    after the request has settled. *)
Fixpoint cut (l : list Effect) : list Effect * list Effect :=
  match l with
  | [] => ([], [])
  | Issued r :: rest => ([Issued r], rest)
  | e :: rest => let (seg, tl) := cut rest in (e :: seg, tl)
  end.

(** The session on screen and, for every run that is waiting for the
    service, the part of its log still to come.  A run's setters are
    constants fixed by the session it was started from, so what is left of
    it is a list of effects. *)
Record App := mkApp
  { shown : Session;
    inflight : list (list Effect) }.

Inductive Step :=
| User (ev : UserEvent)
| Settle (i : nat).

(** Replace the [i]-th waiting run by what is left of it, or drop it. *)
Definition requeue (runs : list (list Effect)) (i : nat)
    (rest : list Effect) : list (list Effect) :=
  firstn i runs ++ match rest with [] => [] | _ :: _ => [rest] end
  ++ skipn (S i) runs.

(** One step: a user event runs its handler up to the first request it
    awaits, if any; a settlement resumes the waiting run up to its next
    request or to its end. *)
Definition app_step (trim : string -> string) (st : App) (step : Step) : App :=
  match step with
  | User ev =>
      let (seg, rest) :=
        cut (effects (dispatch trim (shown st) ev) (shown st)) in
      mkApp (replay seg (shown st))
            (inflight st ++ match rest with [] => [] | _ :: _ => [rest] end)
  | Settle i =>
      match nth_error (inflight st) i with
      | Some log =>
          let (seg, rest) := cut log in
          mkApp (replay seg (shown st)) (requeue (inflight st) i rest)
      | None => st
      end
  end.

Definition app_run (trim : string -> string) (steps : list Step) : App :=
  fold_left (app_step trim) steps (mkApp initialSession []).

(** The selection, when there is one, resolves in the bucket of the
    current product type. *)
Definition selection_ok (s : Session) : bool :=
  match manualSelection s with
  | Some sel =>
      match productType s with
      | Some type => resolves (fabricData s) type sel
      | None => false
      end
  | None => true
  end.

(** On the result step there is a result to show. *)
Definition result_ok (s : Session) : bool :=
  match step s, simulationResult s with
  | result, None => false
  | _, _ => true
  end.

Definition sound (s : Session) : bool :=
  seeded (fabricData s) && selection_ok s && result_ok s.

(** What may still come of a run without breaking [sound]: no setter of
    the catalog, product type or selection; the step set to result only
    after a result was stored, the result cleared only after the step was
    set elsewhere, both within the same stretch between two requests. *)
Fixpoint tail_ok (have away : bool) (l : list Effect) : bool :=
  match l with
  | [] => true
  | e :: rest =>
      match e with
      | SetSimulationResult (Some _) => tail_ok true away rest
      | SetSimulationResult None => away && tail_ok false away rest
      | SetStep result => have && tail_ok have false rest
      | SetStep _ => tail_ok have true rest
      | Issued _ => tail_ok false false rest
      | SetFabricData _ | SetProductType _ | SetManualSelection _ => false
      | _ => tail_ok have away rest
      end
  end.

(** The state is sound: the session is, and so is what every waiting run
    still has to do. *)
Definition app_sound (st : App) : Prop :=
  sound (shown st) = true /\
  Forall (fun l => tail_ok false false l = true) (inflight st).

(** The label announced for each kind of request. *)
Definition stageLabel (k : RequestKind) : string :=
  match k with
  | Recommendation => "Generating AI recommendation..."
  | DayComposite => "Simulating daytime view..."
  | NightComposite => "Simulating nighttime view..."
  end.

(** An uninterrupted run: the state reached from session [s] with no run
    waiting by one user event and then [k] settlements of the waiting run,
    nothing else being handled in between. *)
Definition after_settlements (trim : string -> string) (s : Session)
    (ev : UserEvent) (k : nat) : App :=
  fold_left (app_step trim) (User ev :: repeat (Settle 0) k) (mkApp s []).

(** * Properties *)

(** ** Arrays *)

Lemma find_some_split {A} (f : A -> bool) (l : list A) (x : A) :
  find f l = Some x ->
  exists pre post,
    l = pre ++ x :: post /\ f x = true /\ forallb (fun y => negb (f y)) pre = true.
Proof.
  unfold find. induction l as [|y l IH]; simpl; [discriminate|].
  destruct (f y) eqn:Hy.
  - intros [= ->]. exists [], l. auto.
  - intros H. destruct (IH H) as (pre & post & -> & Hx & Hpre).
    exists (y :: pre), post. simpl. rewrite Hy. auto.
Qed.

Lemma find_first {A} (f : A -> bool) (l : list A) (x : A) :
  first l = Some x -> f x = true -> find f l = Some x.
Proof.
  destruct l as [|y l]; simpl; [discriminate|].
  intros [= ->] Hx. unfold find. simpl. now rewrite Hx.
Qed.

Lemma mutate_found_split {A} (f : A -> bool) (g : A -> A) pre x post :
  f x = true -> forallb (fun y => negb (f y)) pre = true ->
  mutate_found f g (pre ++ x :: post) = pre ++ g x :: post.
Proof.
  intros Hx. induction pre as [|y pre IH]; simpl.
  - now rewrite Hx.
  - destruct (f y); simpl; [discriminate|]. intros H. now rewrite IH.
Qed.

Lemma find_mutate_found {A} (f : A -> bool) (g : A -> A) l x :
  (forall y, f y = true -> f (g y) = true) ->
  find f l = Some x -> find f (mutate_found f g l) = Some (g x).
Proof.
  intros Hg. unfold find. induction l as [|y l IH]; simpl; [discriminate|].
  destruct (f y) eqn:Hy; simpl.
  - intros [= ->]. now rewrite (Hg _ Hy).
  - rewrite Hy. exact IH.
Qed.

Lemma bucket_set_bucket_same fd t l : bucket (set_bucket fd t l) t = l.
Proof. now destruct t. Qed.

Lemma bucket_set_bucket_other fd t u l :
  t <> u -> bucket (set_bucket fd t l) u = bucket fd u.
Proof. destruct t, u; simpl; congruence. Qed.

(** ** Selection cursor *)

Lemma handleSelectionChange_ok fd t sel key v sel' s :
  newSelection fd t sel key v = Ok sel' ->
  outcome (handleSelectionChange fd t sel key v) s = Ok tt /\
  effects (handleSelectionChange fd t sel key v) s
    = [SetManualSelection (Some sel')].
Proof.
  intros H. unfold outcome, effects, run, handleSelectionChange.
  simpl. unfold lift. now rewrite H.
Qed.

Lemma newSelection_company fd t sel v c p col :
  find (fun c => FabricCompany.id c =? v) (bucket fd t) = Some c ->
  first (FabricCompany.products c) = Some p ->
  first (Product.colors p) = Some col ->
  newSelection fd t sel KFabricCompanyId v
    = Ok (mkSelection v (Product.id p) (Color.id col)).
Proof.
  intros Hc Hp Hcol. unfold newSelection, companies. simpl.
  rewrite Hc. simpl. rewrite Hp. simpl. now rewrite Hcol.
Qed.

Lemma newSelection_product fd t sel v c p col :
  selectedCompany fd t sel = Some c ->
  find (fun p => Product.id p =? v) (FabricCompany.products c) = Some p ->
  first (Product.colors p) = Some col ->
  newSelection fd t sel KProductId v
    = Ok (mkSelection (fabricCompanyId sel) v (Color.id col)).
Proof.
  intros Hc Hp Hcol. unfold newSelection. simpl.
  rewrite Hc. simpl. rewrite Hp. simpl. now rewrite Hcol.
Qed.

Lemma newSelection_color fd t sel v :
  newSelection fd t sel KColorId v
    = Ok (mkSelection (fabricCompanyId sel) (productId sel) v).
Proof. reflexivity. Qed.

Lemma resolves_intro fd t sel c p col :
  find (fun c => FabricCompany.id c =? fabricCompanyId sel) (bucket fd t)
    = Some c ->
  find (fun p => Product.id p =? productId sel) (FabricCompany.products c)
    = Some p ->
  find (fun c => Color.id c =? colorId sel) (Product.colors p) = Some col ->
  resolves fd t sel = true.
Proof.
  intros Hc Hp Hcol.
  unfold resolves, selectedProduct, selectedCompany, companies.
  now rewrite Hc, Hp, Hcol.
Qed.

(** The catalog of the counterexample below is one the application can
    hold: the admin types "Acme" on the Curtains tab and adds a company. *)
Lemma catalog_with_new_company_reachable (trim : string -> string) :
  trim "Acme" = "Acme" ->
  catalog_after trim [(mkAdminPanel Curtains "Acme",
                       AddCompanyClick 1700000000000)]
    = catalog_with_new_company.
Proof.
  intros H. unfold catalog_after, catalog_step, final, run. simpl.
  unfold handleAddCompany. simpl. rewrite H. reflexivity.
Qed.

(** C1 (as stated, refuted).  The seed selection of Curtains is a valid
    path and the company id "fc-1700000000000" is present in the Curtains
    bucket, yet choosing that company yields no triple: the handler throws
    on the missing first product and never calls [setManualSelection]. *)
Lemma selection_cascade_counterexample :
  resolves catalog_with_new_company Curtains
           (mkSelection "c-fc1" "c-p1" "c-c1") = true /\
  (exists c,
      find (fun c => FabricCompany.id c =? "fc-1700000000000")
           (bucket catalog_with_new_company Curtains) = Some c) /\
  outcome (handleSelectionChange catalog_with_new_company Curtains
             (mkSelection "c-fc1" "c-p1" "c-c1")
             KFabricCompanyId "fc-1700000000000") initialSession
    = Throw (TypeError "id") /\
  effects (handleSelectionChange catalog_with_new_company Curtains
             (mkSelection "c-fc1" "c-p1" "c-c1")
             KFabricCompanyId "fc-1700000000000") initialSession
    = [].
Proof.
  split; [reflexivity|]. split; [eexists; reflexivity|].
  split; reflexivity.
Qed.

(** C1 (amended).  Choosing a company found in the bucket that has a first
    product with a first color sets the selection to that company, its
    first product and that product's first color; choosing a product found
    under the selected company that has a first color keeps the company,
    takes the product and its first color; choosing a color replaces only
    the color id.  In the first two cases the new triple resolves in the
    catalog, so nothing of the previous parent is retained. *)
Theorem selection_cascade (fd : FabricData) (t : ProductType)
    (S : ManualSelection) (s : Session) :
  (forall C' c p col,
      find (fun c => FabricCompany.id c =? C') (bucket fd t) = Some c ->
      first (FabricCompany.products c) = Some p ->
      first (Product.colors p) = Some col ->
      outcome (handleSelectionChange fd t S KFabricCompanyId C') s = Ok tt /\
      effects (handleSelectionChange fd t S KFabricCompanyId C') s
        = [SetManualSelection
             (Some (mkSelection C' (Product.id p) (Color.id col)))] /\
      resolves fd t (mkSelection C' (Product.id p) (Color.id col)) = true)
  /\
  (forall P' c p col,
      selectedCompany fd t S = Some c ->
      find (fun p => Product.id p =? P') (FabricCompany.products c) = Some p ->
      first (Product.colors p) = Some col ->
      outcome (handleSelectionChange fd t S KProductId P') s = Ok tt /\
      effects (handleSelectionChange fd t S KProductId P') s
        = [SetManualSelection
             (Some (mkSelection (fabricCompanyId S) P' (Color.id col)))] /\
      resolves fd t (mkSelection (fabricCompanyId S) P' (Color.id col)) = true)
  /\
  (forall v,
      outcome (handleSelectionChange fd t S KColorId v) s = Ok tt /\
      effects (handleSelectionChange fd t S KColorId v) s
        = [SetManualSelection
             (Some (mkSelection (fabricCompanyId S) (productId S) v))]).
Proof.
  split; [|split].
  - intros C' c p col Hc Hp Hcol.
    destruct (handleSelectionChange_ok fd t S KFabricCompanyId C' _ s
                (newSelection_company fd t S C' c p col Hc Hp Hcol)) as [Ho He].
    repeat split; trivial.
    apply resolves_intro with (c := c) (p := p) (col := col); simpl; trivial.
    + apply find_first; trivial. apply String.eqb_refl.
    + apply find_first; trivial. apply String.eqb_refl.
  - intros P' c p col Hc Hp Hcol.
    destruct (handleSelectionChange_ok fd t S KProductId P' _ s
                (newSelection_product fd t S P' c p col Hc Hp Hcol)) as [Ho He].
    repeat split; trivial.
    apply resolves_intro with (c := c) (p := p) (col := col); simpl; trivial.
    apply find_first; trivial. apply String.eqb_refl.
  - intros v. exact (handleSelectionChange_ok fd t S KColorId v _ s
             (newSelection_color fd t S v)).
Qed.

Lemma selection_cascade_witness :
  effects (handleSelectionChange MOCK_DATA RollerBlinds
             (mkSelection "rb-fc1" "rb-p1" "rb-c2")
             KFabricCompanyId "rb-fc2") initialSession
    = [SetManualSelection (Some (mkSelection "rb-fc2" "rb-p3" "rb-c6"))] /\
  effects (handleSelectionChange MOCK_DATA RollerBlinds
             (mkSelection "rb-fc1" "rb-p1" "rb-c2")
             KProductId "rb-p2") initialSession
    = [SetManualSelection (Some (mkSelection "rb-fc1" "rb-p2" "rb-c4"))] /\
  effects (handleSelectionChange MOCK_DATA RollerBlinds
             (mkSelection "rb-fc1" "rb-p1" "rb-c2")
             KColorId "rb-c3") initialSession
    = [SetManualSelection (Some (mkSelection "rb-fc1" "rb-p1" "rb-c3"))].
Proof.
  destruct (selection_cascade MOCK_DATA RollerBlinds
              (mkSelection "rb-fc1" "rb-p1" "rb-c2") initialSession)
    as (Hcompany & Hproduct & Hcolor).
  split; [|split].
  - apply (Hcompany "rb-fc2" _ _ _ eq_refl eq_refl eq_refl).
  - apply (Hproduct "rb-p2" _ _ _ eq_refl eq_refl eq_refl).
  - apply (Hcolor "rb-c3").
Defined.

(** C10.  Setting [colorId] neither validates nor cascades: whatever the
    catalog and the string, the handler succeeds and its single effect is
    to store the selection with the color id replaced by that string; a
    valid selection can thereby become one that no longer resolves. *)
Theorem colorId_set_verbatim :
  (forall fd t S v s,
      outcome (handleSelectionChange fd t S KColorId v) s = Ok tt /\
      effects (handleSelectionChange fd t S KColorId v) s
        = [SetManualSelection
             (Some (mkSelection (fabricCompanyId S) (productId S) v))] /\
      manualSelection (final (handleSelectionChange fd t S KColorId v) s)
        = Some (mkSelection (fabricCompanyId S) (productId S) v))
  /\
  (exists fd t S v s,
      resolves fd t S = true /\
      match manualSelection (final (handleSelectionChange fd t S KColorId v) s)
      with
      | Some S' => resolves fd t S' = false
      | None => False
      end).
Proof.
  split.
  - intros fd t S v s. split; [|split]; reflexivity.
  - exists MOCK_DATA, Curtains, (mkSelection "c-fc1" "c-p1" "c-c1"),
      "rb-c7", initialSession.
    split; reflexivity.
Qed.

Lemma seeded_bucket fd t : seeded fd = true -> headed (bucket fd t) = true.
Proof.
  unfold seeded. intros H.
  apply andb_prop in H as [H H3]. apply andb_prop in H as [H1 H2].
  now destruct t.
Qed.

Lemma seeded_set_bucket fd t l :
  seeded fd = true -> headed l = true -> seeded (set_bucket fd t l) = true.
Proof.
  unfold seeded. intros H Hl.
  apply andb_prop in H as [H H3]. apply andb_prop in H as [H1 H2].
  destruct t; simpl; now rewrite ?H1, ?H2, ?H3, ?Hl.
Qed.

Lemma headed_push l x : headed l = true -> headed (push l x) = true.
Proof. destruct l; [discriminate|trivial]. Qed.

Lemma headed_mutate_found f g l :
  (forall c, headed [c] = true -> headed [g c] = true) ->
  headed l = true -> headed (mutate_found f g l) = true.
Proof.
  intros Hg. destruct l as [|c r]; [discriminate|]. simpl mutate_found.
  destruct (f c); trivial. intros H. now apply (Hg c).
Qed.

Lemma catalog_step_seeded trim fd ac :
  seeded fd = true -> seeded (catalog_step trim fd ac) = true.
Proof.
  intros H. destruct ac as [a [now|cid name now|cid pid name hex now]];
    unfold catalog_step, final, run; simpl.
  - unfold handleAddCompany. destruct (trim (newItemName a) =? ""); simpl;
      trivial.
    apply seeded_set_bucket; trivial.
    apply headed_push, seeded_bucket, H.
  - unfold handleAddProduct. destruct name as [name|]; simpl; trivial.
    destruct (name =? ""); simpl; trivial.
    destruct (find _ _); simpl; trivial.
    apply seeded_set_bucket; trivial.
    apply headed_mutate_found; [|apply seeded_bucket, H].
    intros c. simpl. destruct (FabricCompany.products c); [discriminate|trivial].
  - unfold handleAddColor. destruct (falsy name) eqn:Hn; simpl; trivial.
    destruct (falsy hex) eqn:Hh; simpl; trivial.
    destruct name as [name|]; [|discriminate].
    destruct hex as [hex|]; [|discriminate]. simpl.
    destruct (find _ _) as [c|]; simpl; trivial.
    destruct (find _ _); simpl; trivial.
    apply seeded_set_bucket; trivial.
    apply headed_mutate_found; [|apply seeded_bucket, H].
    intros c'. simpl.
    destruct (FabricCompany.products c') as [|p r]; [discriminate|].
    simpl. destruct (Product.id p =? pid); simpl; trivial.
    destruct (Product.colors p); [discriminate|trivial].
Qed.

Lemma catalog_after_seeded trim clicks :
  seeded (catalog_after trim clicks) = true.
Proof.
  unfold catalog_after.
  assert (Hseed : seeded MOCK_DATA = true) by reflexivity.
  revert Hseed. generalize MOCK_DATA.
  induction clicks as [|ac clicks IH]; intros fd Hfd; simpl; trivial.
  apply IH, catalog_step_seeded, Hfd.
Qed.

(** ** Choosing a product type *)

Lemma handleProductSelect_empty s type :
  bucket (fabricData s) type = [] ->
  outcome (handleProductSelect s type) s = Ok tt /\
  effects (handleProductSelect s type) s
    = [SetProductType (Some type); SetStep configure; SetManualSelection None]
  /\
  manualSelection (final (handleProductSelect s type) s) = None.
Proof.
  intros H. unfold outcome, effects, final, run, handleProductSelect. simpl.
  now rewrite H.
Qed.

Lemma handleProductSelect_first s type c p col :
  first (bucket (fabricData s) type) = Some c ->
  first (FabricCompany.products c) = Some p ->
  first (Product.colors p) = Some col ->
  outcome (handleProductSelect s type) s = Ok tt /\
  effects (handleProductSelect s type) s
    = [SetProductType (Some type); SetStep configure;
       SetManualSelection
         (Some (mkSelection (FabricCompany.id c) (Product.id p) (Color.id col)))]
  /\
  manualSelection (final (handleProductSelect s type) s)
    = Some (mkSelection (FabricCompany.id c) (Product.id p) (Color.id col)).
Proof.
  intros Hc Hp Hcol.
  unfold outcome, effects, final, run, handleProductSelect. simpl.
  destruct (bucket (fabricData s) type) as [|c' r]; [discriminate|].
  injection Hc as ->. simpl. rewrite Hp. simpl. now rewrite Hcol.
Qed.

(** Outside the catalogs the application can hold, a bucket whose first
    company has no product makes the handler throw after the product type
    and the step have been stored; the selection is left as it was. *)
Lemma handleProductSelect_headless s type c rest :
  bucket (fabricData s) type = c :: rest ->
  FabricCompany.products c = [] ->
  outcome (handleProductSelect s type) s = Throw (TypeError "colors") /\
  effects (handleProductSelect s type) s
    = [SetProductType (Some type); SetStep configure] /\
  manualSelection (final (handleProductSelect s type) s) = manualSelection s.
Proof.
  intros Hb Hp.
  unfold outcome, effects, final, run, handleProductSelect. simpl.
  rewrite Hb. simpl. rewrite Hp. repeat split.
Qed.

Lemma headed_first l :
  headed l = true ->
  exists c p col,
    first l = Some c /\ first (FabricCompany.products c) = Some p /\
    first (Product.colors p) = Some col.
Proof.
  destruct l as [|c r]; [discriminate|]. simpl.
  destruct (FabricCompany.products c) as [|p pr] eqn:Hp; [discriminate|].
  destruct (Product.colors p) as [|col cr] eqn:Hcol; [discriminate|].
  intros _. exists c, p, col. rewrite Hp. simpl. now rewrite Hcol.
Qed.

(** C2.  Selecting a product type stores an absent selection when the
    bucket for that type is empty, and otherwise the ids of the bucket's
    first company, that company's first product and that product's first
    color.  The latter is what happens in every catalog the application can
    hold (the seed catalog extended by any sequence of admin additions) for
    every product type; on the seed catalog Curtains gives "c-fc1", "c-p1",
    "c-c1", the color named Ruby Red. *)
Theorem handleProductSelect_initial :
  (forall s type,
      bucket (fabricData s) type = [] ->
      outcome (handleProductSelect s type) s = Ok tt /\
      manualSelection (final (handleProductSelect s type) s) = None)
  /\
  (forall s type c p col,
      first (bucket (fabricData s) type) = Some c ->
      first (FabricCompany.products c) = Some p ->
      first (Product.colors p) = Some col ->
      outcome (handleProductSelect s type) s = Ok tt /\
      manualSelection (final (handleProductSelect s type) s)
        = Some (mkSelection (FabricCompany.id c) (Product.id p) (Color.id col)))
  /\
  (forall trim clicks s type,
      exists c p col,
        first (bucket (catalog_after trim clicks) type) = Some c /\
        first (FabricCompany.products c) = Some p /\
        first (Product.colors p) = Some col /\
        outcome
          (handleProductSelect
             (apply_session (SetFabricData (catalog_after trim clicks)) s) type)
          (apply_session (SetFabricData (catalog_after trim clicks)) s)
          = Ok tt /\
        manualSelection
          (final
             (handleProductSelect
                (apply_session (SetFabricData (catalog_after trim clicks)) s)
                type)
             (apply_session (SetFabricData (catalog_after trim clicks)) s))
          = Some (mkSelection (FabricCompany.id c) (Product.id p)
                              (Color.id col)))
  /\
  (manualSelection (final (handleProductSelect initialSession Curtains)
                          initialSession)
     = Some (mkSelection "c-fc1" "c-p1" "c-c1") /\
   option_map Color.name
     (match selectedProduct MOCK_DATA Curtains
              (mkSelection "c-fc1" "c-p1" "c-c1") with
      | Some p => find (fun c => Color.id c =? "c-c1") (Product.colors p)
      | None => None
      end) = Some "Ruby Red").
Proof.
  split; [|split; [|split]].
  - intros s type H.
    destruct (handleProductSelect_empty s type H) as (Ho & _ & Hf). now split.
  - intros s type c p col Hc Hp Hcol.
    destruct (handleProductSelect_first s type c p col Hc Hp Hcol)
      as (Ho & _ & Hf).
    now split.
  - intros trim clicks s type.
    destruct (headed_first (bucket (catalog_after trim clicks) type))
      as (c & p & col & Hc & Hp & Hcol).
    { apply seeded_bucket, catalog_after_seeded. }
    exists c, p, col. repeat (split; trivial).
    + now apply (handleProductSelect_first _ type c p col).
    + now apply (handleProductSelect_first _ type c p col).
  - split; reflexivity.
Qed.

Lemma handleProductSelect_initial_witness :
  manualSelection
    (final (handleProductSelect
              (apply_session (SetFabricData (mkFabricData [] [] []))
                             initialSession) RollerBlinds)
           (apply_session (SetFabricData (mkFabricData [] [] []))
                          initialSession)) = None /\
  manualSelection (final (handleProductSelect initialSession RollerBlinds)
                         initialSession)
    = Some (mkSelection "rb-fc1" "rb-p1" "rb-c1").
Proof.
  destruct handleProductSelect_initial as (Hempty & Hfirst & _ & _).
  split.
  - apply Hempty. reflexivity.
  - apply (Hfirst initialSession RollerBlinds _ _ _ eq_refl eq_refl eq_refl).
Defined.

(** ** Reset and back *)

(** C3 (as stated, refuted).  Reset from the result screen leaves the
    loading-stage label and the active result view as they were, so the
    session after reset is not the initial one. *)
Lemma handleReset_counterexample :
  loadingText (final handleReset viewing_night)
    = "Simulating nighttime view..." /\
  activeResultView (final handleReset viewing_night) = night /\
  loadingText (final handleReset viewing_night) <> loadingText initialSession /\
  activeResultView (final handleReset viewing_night)
    <> activeResultView initialSession.
Proof. repeat split; discriminate. Qed.

(** C3 (amended).  Reset sets the step to upload, clears the uploaded
    image, product type, simulation mode, manual selection, simulation
    result and error message, and sets the loading flag to false; the
    catalog, the loading-stage label, the active result view and the
    curtain style keep their values. *)
Theorem handleReset_clears (s : Session) :
  outcome handleReset s = Ok tt /\
  final handleReset s
    = mkSession upload None None None None None false (loadingText s) None
                (activeResultView s) (fabricData s) (curtainStyle s).
Proof. split; reflexivity. Qed.

(** C6.  Back changes nothing but the step: the uploaded image, product
    type, manual selection and simulation result (and every other cell)
    keep their values; from result the step becomes configure, from
    configure select_product, from select_product and from admin upload. *)
Theorem handleBack_frame (s : Session) :
  outcome (handleBack s) s = Ok tt /\
  final (handleBack s) s
    = mkSession
        match step s with
        | result => configure
        | configure => select_product
        | select_product | admin => upload
        | upload => upload
        | simulate => simulate
        end
        (uploadedFile s) (productType s) (simulationMode s)
        (manualSelection s) (simulationResult s) (isLoading s)
        (loadingText s) (error s) (activeResultView s) (fabricData s)
        (curtainStyle s) /\
  uploadedFile (final (handleBack s) s) = uploadedFile s /\
  productType (final (handleBack s) s) = productType s /\
  manualSelection (final (handleBack s) s) = manualSelection s /\
  simulationResult (final (handleBack s) s) = simulationResult s.
Proof.
  unfold outcome, final, run, handleBack.
  destruct s as [st uf pt sm ms sr il lt er av fd cs]; simpl.
  destruct st; repeat split.
Qed.

(** ** Simulation runs *)

(** Unfold a run down to its log and final session. *)
Ltac unfold_run :=
  unfold effects, final, outcome, run, runManualSimulation, runAutoSimulation,
    handleModeSelect, try_catch_finally, await, setIsLoading, setStep,
    setSimulationResult, setLoadingText, setError, setActiveResultView,
    setSimulationMode, emit, lift.

(** Reduce the monadic plumbing and the projections of the world. *)
Ltac run_step :=
  cbv beta iota zeta
      delta [bind Monad_M session trace adminPanel fst snd app apply_admin].

(** Consume a membership hypothesis on a log whose spine is known. *)
Ltac pick_event H :=
  simpl in H;
  repeat match type of H with
         | _ \/ _ => destruct H as [H|H]
         end;
  try contradiction; try discriminate H.

Lemma resolved_selection fd type sel p c :
  selectedProduct fd type sel = Some p ->
  find (fun c => Color.id c =? colorId sel) (Product.colors p) = Some c ->
  exists fc,
    find (fun fc => FabricCompany.id fc =? fabricCompanyId sel) (bucket fd type)
      = Some fc /\
    find (fun p => Product.id p =? productId sel) (FabricCompany.products fc)
      = Some p.
Proof.
  unfold selectedProduct, selectedCompany, companies.
  destruct (find _ (bucket fd type)) as [fc|]; [|discriminate].
  intros Hp _. now exists fc.
Qed.

(** The final session is the initial one with the logged setters applied
    in order. *)
Lemma manual_final_replay service s :
  outcome (runManualSimulation service s) s = Ok tt /\
  final (runManualSimulation service s) s
    = replay (effects (runManualSimulation service s) s) s.
Proof.
  unfold_run.
  destruct (uploadedFile s) as [file|]; [|split; reflexivity].
  destruct (productType s) as [type|]; [|split; reflexivity].
  destruct (manualSelection s) as [sel|]; [|split; reflexivity].
  cbv zeta.
  destruct (find _ (bucket (fabricData s) type)) as [fc|];
    [|split; reflexivity].
  destruct (find _ (FabricCompany.products fc)) as [p|];
    [|split; reflexivity].
  destruct (find _ (Product.colors p)) as [c|]; [|split; reflexivity].
  run_step.
  destruct (service (SimulateWindowCovering _ _ _ _ _ true _));
    [|split; reflexivity].
  destruct (service (SimulateWindowCovering _ _ _ _ _ false _));
    split; reflexivity.
Qed.

Lemma auto_final_replay service s :
  outcome (runAutoSimulation service s) s = Ok tt /\
  final (runAutoSimulation service s) s
    = replay (effects (runAutoSimulation service s) s) s.
Proof.
  unfold_run.
  destruct (uploadedFile s) as [file|]; [|split; reflexivity].
  destruct (productType s) as [type|]; [|split; reflexivity].
  run_step.
  destruct (service (GenerateRecommendation _ _ _)); [|split; reflexivity].
  destruct (service (SimulateWindowCovering _ _ _ _ _ true _));
    [|split; reflexivity].
  destruct (service (SimulateWindowCovering _ _ _ _ _ false _));
    split; reflexivity.
Qed.

Section ManualRun.

Variable service : Request -> Outcome.
Variable s : Session.
Variable file : UploadedFile.t.
Variable type : ProductType.
Variable sel : ManualSelection.

Hypothesis Hfile : uploadedFile s = Some file.
Hypothesis Htype : productType s = Some type.
Hypothesis Hsel : manualSelection s = Some sel.

Lemma manual_log_unresolved :
  resolves (fabricData s) type sel = false ->
  effects (runManualSimulation service s) s
    = [SetIsLoading true; SetStep simulate; SetSimulationResult None;
       SetError (Some "Could not find product details.");
       SetIsLoading false; SetStep configure].
Proof.
  unfold resolves, selectedProduct, selectedCompany, companies.
  unfold_run. rewrite Hfile, Htype, Hsel. cbv zeta.
  destruct (find _ (bucket (fabricData s) type)) as [fc|];
    [|reflexivity].
  destruct (find _ (FabricCompany.products fc)) as [p|]; [|reflexivity].
  destruct (find _ (Product.colors p)) as [c|]; [discriminate|reflexivity].
Qed.

Variable p : Product.t.
Variable c : Color.t.

Hypothesis Hproduct : selectedProduct (fabricData s) type sel = Some p.
Hypothesis Hcolor :
  find (fun c => Color.id c =? colorId sel) (Product.colors p) = Some c.

Abbreviation dayRequest := (manualRequest s file type c p true).
Abbreviation nightRequest := (manualRequest s file type c p false).

Ltac start_manual :=
  destruct (resolved_selection _ _ _ _ _ Hproduct Hcolor) as (fc & Hfc & Hp');
  unfold manualRequest in *;
  unfold_run; rewrite Hfile, Htype, Hsel; cbv zeta; rewrite Hfc, Hp', Hcolor;
  run_step.

Lemma manual_log_day_rejected msg :
  service dayRequest = Rejected msg ->
  effects (runManualSimulation service s) s
    = [SetIsLoading true; SetStep simulate; SetSimulationResult None;
       SetLoadingText "Simulating daytime view...";
       Issued dayRequest; Settled dayRequest (Rejected msg);
       SetError (Some msg); SetStep configure; SetIsLoading false].
Proof. intros Hday. start_manual. rewrite Hday. reflexivity. Qed.

Lemma manual_log_night_rejected img msg :
  service dayRequest = Resolved img ->
  service nightRequest = Rejected msg ->
  effects (runManualSimulation service s) s
    = [SetIsLoading true; SetStep simulate; SetSimulationResult None;
       SetLoadingText "Simulating daytime view...";
       Issued dayRequest; Settled dayRequest (Resolved img);
       SetLoadingText "Simulating nighttime view...";
       Issued nightRequest; Settled nightRequest (Rejected msg);
       SetError (Some msg); SetStep configure; SetIsLoading false].
Proof.
  intros Hday Hnight. start_manual. rewrite Hday.
  run_step. rewrite Hnight. reflexivity.
Qed.

Lemma manual_log_success img img' :
  service dayRequest = Resolved img ->
  service nightRequest = Resolved img' ->
  effects (runManualSimulation service s) s
    = [SetIsLoading true; SetStep simulate; SetSimulationResult None;
       SetLoadingText "Simulating daytime view...";
       Issued dayRequest; Settled dayRequest (Resolved img);
       SetLoadingText "Simulating nighttime view...";
       Issued nightRequest; Settled nightRequest (Resolved img');
       SetSimulationResult (Some (mkResult (Some img) (Some img') None));
       SetStep result; SetActiveResultView day; SetIsLoading false].
Proof.
  intros Hday Hnight. start_manual. rewrite Hday.
  run_step. rewrite Hnight. reflexivity.
Qed.

End ManualRun.

Section AutoRun.

Variable service : Request -> Outcome.
Variable s : Session.
Variable file : UploadedFile.t.
Variable type : ProductType.

Hypothesis Hfile : uploadedFile s = Some file.
Hypothesis Htype : productType s = Some type.

Abbreviation recRequest := (autoRecommendation file type).
Abbreviation dayRequest := (autoRequest s file type true).
Abbreviation nightRequest := (autoRequest s file type false).

Ltac start_auto :=
  unfold autoRecommendation, autoRequest in *;
  unfold_run; rewrite Hfile, Htype; run_step.

Lemma auto_log_recommendation_rejected msg :
  service recRequest = Rejected msg ->
  effects (runAutoSimulation service s) s
    = [SetIsLoading true; SetStep simulate; SetSimulationResult None;
       SetLoadingText "Generating AI recommendation...";
       Issued recRequest; Settled recRequest (Rejected msg);
       SetError (Some msg); SetStep configure; SetIsLoading false].
Proof. intros Hrec. start_auto. rewrite Hrec. reflexivity. Qed.

Lemma auto_log_day_rejected text msg :
  service recRequest = Resolved text ->
  service dayRequest = Rejected msg ->
  effects (runAutoSimulation service s) s
    = [SetIsLoading true; SetStep simulate; SetSimulationResult None;
       SetLoadingText "Generating AI recommendation...";
       Issued recRequest; Settled recRequest (Resolved text);
       SetLoadingText "Simulating daytime view...";
       Issued dayRequest; Settled dayRequest (Rejected msg);
       SetError (Some msg); SetStep configure; SetIsLoading false].
Proof.
  intros Hrec Hday. start_auto. rewrite Hrec. run_step.
  rewrite Hday. reflexivity.
Qed.

Lemma auto_log_night_rejected text img msg :
  service recRequest = Resolved text ->
  service dayRequest = Resolved img ->
  service nightRequest = Rejected msg ->
  effects (runAutoSimulation service s) s
    = [SetIsLoading true; SetStep simulate; SetSimulationResult None;
       SetLoadingText "Generating AI recommendation...";
       Issued recRequest; Settled recRequest (Resolved text);
       SetLoadingText "Simulating daytime view...";
       Issued dayRequest; Settled dayRequest (Resolved img);
       SetLoadingText "Simulating nighttime view...";
       Issued nightRequest; Settled nightRequest (Rejected msg);
       SetError (Some msg); SetStep configure; SetIsLoading false].
Proof.
  intros Hrec Hday Hnight. start_auto. rewrite Hrec. run_step.
  rewrite Hday. run_step. rewrite Hnight. reflexivity.
Qed.

Lemma auto_log_success text img img' :
  service recRequest = Resolved text ->
  service dayRequest = Resolved img ->
  service nightRequest = Resolved img' ->
  effects (runAutoSimulation service s) s
    = [SetIsLoading true; SetStep simulate; SetSimulationResult None;
       SetLoadingText "Generating AI recommendation...";
       Issued recRequest; Settled recRequest (Resolved text);
       SetLoadingText "Simulating daytime view...";
       Issued dayRequest; Settled dayRequest (Resolved img);
       SetLoadingText "Simulating nighttime view...";
       Issued nightRequest; Settled nightRequest (Resolved img');
       SetSimulationResult
         (Some (mkResult (Some img) (Some img') (Some text)));
       SetStep result; SetActiveResultView day; SetIsLoading false].
Proof.
  intros Hrec Hday Hnight. start_auto. rewrite Hrec. run_step.
  rewrite Hday. run_step. rewrite Hnight. reflexivity.
Qed.

End AutoRun.

Lemma manual_log_absent service s :
  uploadedFile s = None \/ productType s = None \/ manualSelection s = None ->
  outcome (runManualSimulation service s) s = Ok tt /\
  effects (runManualSimulation service s) s = [] /\
  final (runManualSimulation service s) s = s.
Proof.
  unfold_run.
  destruct (uploadedFile s); [|repeat split].
  destruct (productType s); [|repeat split].
  destruct (manualSelection s); [|repeat split].
  intros [H|[H|H]]; discriminate H.
Qed.

Lemma auto_log_absent service s :
  uploadedFile s = None \/ productType s = None ->
  outcome (runAutoSimulation service s) s = Ok tt /\
  effects (runAutoSimulation service s) s = [] /\
  final (runAutoSimulation service s) s = s.
Proof.
  unfold_run.
  destruct (uploadedFile s); [|repeat split].
  destruct (productType s); [|repeat split].
  intros [H|H]; discriminate H.
Qed.

Lemma manual_log_cases service s :
  ManualLog service s (effects (runManualSimulation service s) s).
Proof.
  destruct (uploadedFile s) as [file|] eqn:Hfile;
    [|rewrite (proj1 (proj2 (manual_log_absent service s (or_introl Hfile))));
      constructor; auto].
  destruct (productType s) as [type|] eqn:Htype;
    [|rewrite (proj1 (proj2 (manual_log_absent service s
                               (or_intror (or_introl Htype)))));
      constructor; auto].
  destruct (manualSelection s) as [sel|] eqn:Hsel;
    [|rewrite (proj1 (proj2 (manual_log_absent service s
                               (or_intror (or_intror Hsel)))));
      constructor; auto].
  destruct (resolves (fabricData s) type sel) eqn:Hres.
  - unfold resolves in Hres.
    destruct (selectedProduct (fabricData s) type sel) as [p|] eqn:Hp;
      [|discriminate].
    destruct (find _ (Product.colors p)) as [c|] eqn:Hc; [|discriminate].
    destruct (service (manualRequest s file type c p true)) as [img|msg]
      eqn:Hday.
    + destruct (service (manualRequest s file type c p false)) as [img'|msg]
        eqn:Hnight.
      * rewrite (manual_log_success service s file type sel
                   Hfile Htype Hsel p c Hp Hc img img' Hday Hnight).
        now apply manual_succeeded.
      * rewrite (manual_log_night_rejected service s file type sel
                   Hfile Htype Hsel p c Hp Hc img msg Hday Hnight).
        now apply manual_night_rejected.
    + rewrite (manual_log_day_rejected service s file type sel
                 Hfile Htype Hsel p c Hp Hc msg Hday).
      now apply manual_day_rejected.
  - rewrite (manual_log_unresolved service s file type sel
               Hfile Htype Hsel Hres).
    now apply manual_unresolved with (file := file) (type := type) (sel := sel).
Qed.

Lemma auto_log_cases service s :
  AutoLog service s (effects (runAutoSimulation service s) s).
Proof.
  destruct (uploadedFile s) as [file|] eqn:Hfile;
    [|rewrite (proj1 (proj2 (auto_log_absent service s (or_introl Hfile))));
      constructor; auto].
  destruct (productType s) as [type|] eqn:Htype;
    [|rewrite (proj1 (proj2 (auto_log_absent service s (or_intror Htype))));
      constructor; auto].
  destruct (service (autoRecommendation file type)) as [text|msg] eqn:Hrec.
  - destruct (service (autoRequest s file type true)) as [img|msg] eqn:Hday.
    + destruct (service (autoRequest s file type false)) as [img'|msg]
        eqn:Hnight.
      * rewrite (auto_log_success service s file type Hfile Htype
                   text img img' Hrec Hday Hnight).
        now apply auto_succeeded.
      * rewrite (auto_log_night_rejected service s file type Hfile Htype
                   text img msg Hrec Hday Hnight).
        now apply auto_night_rejected.
    + rewrite (auto_log_day_rejected service s file type Hfile Htype
                 text msg Hrec Hday).
      now apply auto_day_rejected.
  - rewrite (auto_log_recommendation_rejected service s file type Hfile Htype
               msg Hrec).
    now apply auto_recommendation_rejected.
Qed.

(** C4.  In a manual run whose day composite resolves and whose night
    composite is rejected, one day request and then one night request are
    issued, the stored result stays absent, the error is the rejection's
    message and the step is configure.  In any run, manual or automatic, a
    rejected request is followed by nothing but storing its message as the
    error, setting the step to configure and clearing the loading flag: no
    further request goes out.  A manual run that fails before its first
    request, on a selection that does not resolve, likewise sends nothing,
    stores its message as the error and sets the step to configure. *)
Theorem run_failure_aborts :
  (forall service s file type sel p c img msg,
      uploadedFile s = Some file ->
      productType s = Some type ->
      manualSelection s = Some sel ->
      selectedProduct (fabricData s) type sel = Some p ->
      find (fun c => Color.id c =? colorId sel) (Product.colors p) = Some c ->
      service (manualRequest s file type c p true) = Resolved img ->
      service (manualRequest s file type c p false) = Rejected msg ->
      issued (effects (runManualSimulation service s) s)
        = [manualRequest s file type c p true;
           manualRequest s file type c p false] /\
      map kind (issued (effects (runManualSimulation service s) s))
        = [DayComposite; NightComposite] /\
      simulationResult (final (runManualSimulation service s) s) = None /\
      error (final (runManualSimulation service s) s) = Some msg /\
      step (final (runManualSimulation service s) s) = configure)
  /\
  (forall service s r msg,
      In (Settled r (Rejected msg))
         (effects (runManualSimulation service s) s) ->
      (exists pre,
          effects (runManualSimulation service s) s
            = pre ++ [Settled r (Rejected msg); SetError (Some msg);
                      SetStep configure; SetIsLoading false]) /\
      simulationResult (final (runManualSimulation service s) s) = None /\
      error (final (runManualSimulation service s) s) = Some msg /\
      step (final (runManualSimulation service s) s) = configure)
  /\
  (forall service s r msg,
      In (Settled r (Rejected msg))
         (effects (runAutoSimulation service s) s) ->
      (exists pre,
          effects (runAutoSimulation service s) s
            = pre ++ [Settled r (Rejected msg); SetError (Some msg);
                      SetStep configure; SetIsLoading false]) /\
      simulationResult (final (runAutoSimulation service s) s) = None /\
      error (final (runAutoSimulation service s) s) = Some msg /\
      step (final (runAutoSimulation service s) s) = configure)
  /\
  (forall service s file type sel,
      uploadedFile s = Some file ->
      productType s = Some type ->
      manualSelection s = Some sel ->
      resolves (fabricData s) type sel = false ->
      issued (effects (runManualSimulation service s) s) = [] /\
      simulationResult (final (runManualSimulation service s) s) = None /\
      error (final (runManualSimulation service s) s)
        = Some "Could not find product details." /\
      step (final (runManualSimulation service s) s) = configure).
Proof.
  split; [|split; [|split]]; cycle 3.
  - intros service s file type sel Hf Ht Hs Hres.
    rewrite (proj2 (manual_final_replay service s)).
    rewrite (manual_log_unresolved service s file type sel Hf Ht Hs Hres).
    repeat split.
  - intros service s file type sel p c img msg Hf Ht Hs Hp Hc Hday Hnight.
    rewrite (proj2 (manual_final_replay service s)).
    rewrite (manual_log_night_rejected service s file type sel
               Hf Ht Hs p c Hp Hc img msg Hday Hnight).
    repeat split.
  - intros service s r msg H.
    rewrite (proj2 (manual_final_replay service s)).
    destruct (manual_log_cases service s); pick_event H;
      injection H as <- <-.
    + split; [|repeat split].
      now exists [SetIsLoading true; SetStep simulate; SetSimulationResult None;
                  SetLoadingText "Simulating daytime view...";
                  Issued (manualRequest s file type c p true)].
    + split; [|repeat split].
      now exists [SetIsLoading true; SetStep simulate; SetSimulationResult None;
                  SetLoadingText "Simulating daytime view...";
                  Issued (manualRequest s file type c p true);
                  Settled (manualRequest s file type c p true) (Resolved img);
                  SetLoadingText "Simulating nighttime view...";
                  Issued (manualRequest s file type c p false)].
  - intros service s r msg H.
    rewrite (proj2 (auto_final_replay service s)).
    destruct (auto_log_cases service s); pick_event H;
      injection H as <- <-.
    + split; [|repeat split].
      now exists [SetIsLoading true; SetStep simulate; SetSimulationResult None;
                  SetLoadingText "Generating AI recommendation...";
                  Issued (autoRecommendation file type)].
    + split; [|repeat split].
      now exists [SetIsLoading true; SetStep simulate; SetSimulationResult None;
                  SetLoadingText "Generating AI recommendation...";
                  Issued (autoRecommendation file type);
                  Settled (autoRecommendation file type) (Resolved text);
                  SetLoadingText "Simulating daytime view...";
                  Issued (autoRequest s file type true)].
    + split; [|repeat split].
      now exists [SetIsLoading true; SetStep simulate; SetSimulationResult None;
                  SetLoadingText "Generating AI recommendation...";
                  Issued (autoRecommendation file type);
                  Settled (autoRecommendation file type) (Resolved text);
                  SetLoadingText "Simulating daytime view...";
                  Issued (autoRequest s file type true);
                  Settled (autoRequest s file type true) (Resolved img);
                  SetLoadingText "Simulating nighttime view...";
                  Issued (autoRequest s file type false)].
Qed.

Lemma run_failure_aborts_witness :
  (map kind
     (issued (effects (runManualSimulation (geminiService ai_night_fails)
                         configured) configured))
     = [DayComposite; NightComposite] /\
   simulationResult
     (final (runManualSimulation (geminiService ai_night_fails) configured)
            configured) = None /\
   error
     (final (runManualSimulation (geminiService ai_night_fails) configured)
            configured)
     = Some "Failed to generate the night simulation. The AI might be unable to process this image." /\
   step
     (final (runManualSimulation (geminiService ai_night_fails) configured)
            configured) = configure) /\
  (error
     (final (runAutoSimulation (geminiService ai_day_fails) configured)
            configured)
     = Some "Failed to generate the day simulation. The AI might be unable to process this image." /\
   step
     (final (runAutoSimulation (geminiService ai_day_fails) configured)
            configured) = configure).
Proof.
  destruct run_failure_aborts as (Hscenario & _ & Hauto & _).
  split.
  - destruct (Hscenario (geminiService ai_night_fails) configured
                _ _ _ _ _ _ _
                eq_refl eq_refl eq_refl eq_refl eq_refl eq_refl eq_refl)
      as (_ & Hkinds & Hresult & Herror & Hstep).
    repeat split; assumption.
  - destruct (Hauto (geminiService ai_day_fails) configured
                (autoRequest configured
                   (UploadedFile.mk "aGVsbG8=" "window.jpg" "image/jpeg")
                   Curtains true)
                "Failed to generate the day simulation. The AI might be unable to process this image.")
      as (_ & _ & Herror & Hstep).
    + vm_compute. repeat (first [left; reflexivity | right]).
    + split; assumption.
Defined.

(** C5.  Both run kinds send their requests one at a time and in a fixed
    order: a request goes out only when none is outstanding and every
    earlier one has resolved, a manual run asks for the day composite and
    then the night composite, an automatic run for the recommendation, the
    day composite and the night composite.  When an automatic run's
    recommendation resolves and its day composite is rejected, the labels
    shown are "Generating AI recommendation..." then "Simulating daytime
    view...", the night request is not sent, the step is never set to
    result, and the error is the rejection's message. *)
Theorem runs_sequential :
  (forall service s,
      sequential Free (effects (runManualSimulation service s) s) /\
      exists k,
        map kind (issued (effects (runManualSimulation service s) s))
          = firstn k [DayComposite; NightComposite])
  /\
  (forall service s,
      sequential Free (effects (runAutoSimulation service s) s) /\
      exists k,
        map kind (issued (effects (runAutoSimulation service s) s))
          = firstn k [Recommendation; DayComposite; NightComposite])
  /\
  (forall service s file type text msg,
      uploadedFile s = Some file ->
      productType s = Some type ->
      service (autoRecommendation file type) = Resolved text ->
      service (autoRequest s file type true) = Rejected msg ->
      labels (effects (runAutoSimulation service s) s)
        = ["Generating AI recommendation..."; "Simulating daytime view..."] /\
      issued (effects (runAutoSimulation service s) s)
        = [autoRecommendation file type; autoRequest s file type true] /\
      ~ In (SetStep result) (effects (runAutoSimulation service s) s) /\
      step (final (runAutoSimulation service s) s) = configure /\
      error (final (runAutoSimulation service s) s) = Some msg /\
      simulationResult (final (runAutoSimulation service s) s) = None).
Proof.
  split; [|split].
  - intros service s.
    destruct (manual_log_cases service s); simpl; split;
      try (repeat split; reflexivity).
    + now exists 0.
    + now exists 0.
    + now exists 1.
    + now exists 2.
    + now exists 2.
  - intros service s.
    destruct (auto_log_cases service s); simpl; split;
      try (repeat split; reflexivity).
    + now exists 0.
    + now exists 1.
    + now exists 2.
    + now exists 3.
    + now exists 3.
  - intros service s file type text msg Hf Ht Hrec Hday.
    rewrite (proj2 (auto_final_replay service s)).
    rewrite (auto_log_day_rejected service s file type Hf Ht text msg Hrec Hday).
    repeat split.
    intros H. pick_event H.
Qed.

Lemma runs_sequential_witness :
  labels (effects (runAutoSimulation (geminiService ai_day_fails) configured)
                  configured)
    = ["Generating AI recommendation..."; "Simulating daytime view..."] /\
  map kind
    (issued (effects (runAutoSimulation (geminiService ai_day_fails)
                        configured) configured))
    = [Recommendation; DayComposite] /\
  error (final (runAutoSimulation (geminiService ai_day_fails) configured)
               configured)
    = Some "Failed to generate the day simulation. The AI might be unable to process this image.".
Proof.
  destruct runs_sequential as (_ & _ & Hscenario).
  destruct (Hscenario (geminiService ai_day_fails) configured _ _ _ _
              eq_refl eq_refl eq_refl eq_refl)
    as (Hlabels & Hissued & _ & _ & Herror & _).
  split; [exact Hlabels|]. split; [|exact Herror].
  rewrite Hissued. reflexivity.
Defined.

(** C8 (as stated, refuted).  With the image, the product type and a
    selection all present but the selection's color id not found under the
    selected product, pressing simulate is not a silent no-op: no request
    goes out, but the error message is set and the stored result of the
    earlier run is cleared. *)
Lemma manual_run_preconditions_counterexample :
  resolves (fabricData stale_selection) Curtains
           (mkSelection "c-fc1" "c-p1" "rb-c7") = false /\
  issued (effects (runManualSimulation (geminiService ai_answers)
                     stale_selection) stale_selection) = [] /\
  error stale_selection = None /\
  error (final (runManualSimulation (geminiService ai_answers)
                  stale_selection) stale_selection)
    = Some "Could not find product details." /\
  simulationResult stale_selection
    = Some (mkResult (Some "ZGF5") (Some "bmlnaHQ=") None) /\
  simulationResult (final (runManualSimulation (geminiService ai_answers)
                             stale_selection) stale_selection) = None /\
  final (runManualSimulation (geminiService ai_answers) stale_selection)
        stale_selection <> stale_selection.
Proof. repeat split. discriminate. Qed.

(** C8 (amended).  A manual run with the uploaded image, the product type
    or the manual selection absent does nothing: no effect, no request, the
    session as it was.  With all three present and the selection not
    resolving to a product and color of the catalog, the run sends no
    request either, but it stores the error "Could not find product
    details.", clears the stored result and the loading flag and sets the
    step to configure. *)
Theorem manual_run_preconditions (service : Request -> Outcome) (s : Session) :
  (uploadedFile s = None \/ productType s = None \/ manualSelection s = None ->
   outcome (runManualSimulation service s) s = Ok tt /\
   effects (runManualSimulation service s) s = [] /\
   final (runManualSimulation service s) s = s)
  /\
  (forall file type sel,
      uploadedFile s = Some file ->
      productType s = Some type ->
      manualSelection s = Some sel ->
      resolves (fabricData s) type sel = false ->
      effects (runManualSimulation service s) s
        = [SetIsLoading true; SetStep simulate; SetSimulationResult None;
           SetError (Some "Could not find product details.");
           SetIsLoading false; SetStep configure] /\
      issued (effects (runManualSimulation service s) s) = [] /\
      error (final (runManualSimulation service s) s)
        = Some "Could not find product details." /\
      simulationResult (final (runManualSimulation service s) s) = None /\
      isLoading (final (runManualSimulation service s) s) = false /\
      step (final (runManualSimulation service s) s) = configure).
Proof.
  split.
  - apply manual_log_absent.
  - intros file type sel Hf Ht Hs Hres.
    rewrite (proj2 (manual_final_replay service s)).
    rewrite (manual_log_unresolved service s file type sel Hf Ht Hs Hres).
    repeat split.
Qed.

Lemma manual_run_preconditions_witness :
  final (runManualSimulation (geminiService ai_answers) initialSession)
        initialSession = initialSession /\
  effects (runManualSimulation (geminiService ai_answers) stale_selection)
          stale_selection
    = [SetIsLoading true; SetStep simulate; SetSimulationResult None;
       SetError (Some "Could not find product details.");
       SetIsLoading false; SetStep configure].
Proof.
  split.
  - apply (proj1 (manual_run_preconditions (geminiService ai_answers)
                    initialSession)).
    left. reflexivity.
  - apply (proj2 (manual_run_preconditions (geminiService ai_answers)
                    stale_selection) _ _ _ eq_refl eq_refl eq_refl eq_refl).
Defined.

(** C9 (as stated, refuted).  After a manual run that succeeds the loading
    flag is false but the loading-stage label still reads "Simulating
    nighttime view...", and after an automatic run whose day composite is
    rejected it still reads "Simulating daytime view...".  Besides, while the loading flag is true the header title
    is rendered and a click on it runs the reset, which takes the step from
    simulate to upload. *)
Lemma run_finish_counterexample :
  (isLoading (final (runManualSimulation (geminiService ai_answers) configured)
                    configured) = false /\
   loadingText (final (runManualSimulation (geminiService ai_answers)
                         configured) configured)
     = "Simulating nighttime view...") /\
  (isLoading (final (runAutoSimulation (geminiService ai_day_fails) configured)
                    configured) = false /\
   loadingText (final (runAutoSimulation (geminiService ai_day_fails)
                         configured) configured)
     = "Simulating daytime view...") /\
  (isLoading mid_run = true /\
   rendered mid_run HeaderTitle = true /\
   step mid_run = simulate /\
   step (final (onClick mid_run HeaderTitle) mid_run) = upload).
Proof. repeat split. Qed.

(** C9 (amended).  When a run that started finishes, by success or by
    failure, the loading flag is false; the loading-stage label is not
    cleared: no run ever sets it to the empty string, and after the run it
    reads the last stage announced (or what it read before, if none was).
    While the loading flag is true neither the back button nor the start
    over button is rendered. *)
Theorem run_finish_clears_loading (service : Request -> Outcome) (s : Session) :
  (forall file type sel,
      uploadedFile s = Some file ->
      productType s = Some type ->
      manualSelection s = Some sel ->
      isLoading (final (runManualSimulation service s) s) = false)
  /\
  (forall file type,
      uploadedFile s = Some file ->
      productType s = Some type ->
      isLoading (final (runAutoSimulation service s) s) = false)
  /\
  (forall t,
      In (SetLoadingText t) (effects (runManualSimulation service s) s) \/
      In (SetLoadingText t) (effects (runAutoSimulation service s) s) ->
      t <> "")
  /\
  loadingText (final (runManualSimulation service s) s)
    = last (labels (effects (runManualSimulation service s) s)) (loadingText s)
  /\
  loadingText (final (runAutoSimulation service s) s)
    = last (labels (effects (runAutoSimulation service s) s)) (loadingText s)
  /\
  (isLoading s = true ->
   shouldShowBackButton s = false /\ shouldShowResetButton s = false /\
   rendered s BackButton = false /\ rendered s StartOverButton = false).
Proof.
  split; [|split; [|split; [|split; [|split]]]].
  - intros file type sel Hf Ht Hs.
    rewrite (proj2 (manual_final_replay service s)).
    destruct (manual_log_cases service s) as [H| | | |]; try reflexivity.
    destruct H as [H|[H|H]]; congruence.
  - intros file type Hf Ht.
    rewrite (proj2 (auto_final_replay service s)).
    destruct (auto_log_cases service s) as [H| | | |]; try reflexivity.
    destruct H as [H|H]; congruence.
  - intros t [H|H].
    + destruct (manual_log_cases service s); pick_event H;
        injection H as <-; discriminate.
    + destruct (auto_log_cases service s); pick_event H;
        injection H as <-; discriminate.
  - rewrite (proj2 (manual_final_replay service s)).
    destruct (manual_log_cases service s); reflexivity.
  - rewrite (proj2 (auto_final_replay service s)).
    destruct (auto_log_cases service s); reflexivity.
  - intros H. unfold rendered, shouldShowBackButton, shouldShowResetButton.
    rewrite H. simpl. rewrite andb_false_r. repeat split.
Qed.

Lemma run_finish_clears_loading_witness :
  isLoading (final (runManualSimulation (geminiService ai_night_fails)
                      configured) configured) = false /\
  isLoading (final (runAutoSimulation (geminiService ai_answers) configured)
                   configured) = false /\
  shouldShowBackButton mid_run = false.
Proof.
  split; [|split].
  - apply (proj1 (run_finish_clears_loading (geminiService ai_night_fails)
                    configured) _ _ _ eq_refl eq_refl eq_refl).
  - apply (proj1 (proj2 (run_finish_clears_loading (geminiService ai_answers)
                           configured)) _ _ eq_refl eq_refl).
  - apply (proj2 (proj2 (proj2 (proj2 (proj2
             (run_finish_clears_loading (geminiService ai_answers)
                mid_run)))))).
    reflexivity.
Defined.

(** ** Admin: adding a color *)

Lemma falsy_nonempty name : name <> "" -> falsy (Some name) = false.
Proof. intros H. simpl. now apply String.eqb_neq. Qed.

(** When a prompt is cancelled or left empty the handler returns before
    any lookup: it neither fails nor stores anything, whether or not the
    ids resolve. *)
Lemma handleAddColor_cancelled fd a colorName colorHex now companyId productId s :
  falsy colorName = true \/ falsy colorHex = true ->
  outcome (handleAddColor fd a colorName colorHex now companyId productId) s
    = Ok tt /\
  effects (handleAddColor fd a colorName colorHex now companyId productId) s
    = [] /\
  final (handleAddColor fd a colorName colorHex now companyId productId) s = s.
Proof.
  unfold outcome, effects, final, run, handleAddColor.
  intros [H|H]; rewrite H; [|destruct (falsy colorName)]; repeat split.
Qed.

(** C7 (as stated, refuted).  On the seed catalog the Curtains company
    "c-fc1" has no product "c-p9".  Adding a color under these ids does not
    fail when the name prompt is cancelled, nor when the hex prompt is left
    empty: the handler returns normally.  With both prompts answered it
    does fail, by the [TypeError] of reading [colors] of [undefined]; no
    other kind of error exists in the handler. *)
Lemma handleAddColor_counterexample :
  findProduct (bucket MOCK_DATA Curtains) "c-fc1" "c-p9" = None /\
  outcome (handleAddColor MOCK_DATA (mkAdminPanel Curtains "")
             None None 1700000000000 "c-fc1" "c-p9") initialSession
    = Ok tt /\
  outcome (handleAddColor MOCK_DATA (mkAdminPanel Curtains "")
             (Some "Midnight") (Some "") 1700000000000 "c-fc1" "c-p9")
          initialSession
    = Ok tt /\
  outcome (handleAddColor MOCK_DATA (mkAdminPanel Curtains "")
             (Some "Midnight") (Some "#191970") 1700000000000
             "c-fc1" "c-p9") initialSession
    = Throw (TypeError "colors").
Proof. repeat split. Qed.

(** C7 (amended).  With a color name and a hex code entered, adding a
    color under a company id or product id that is not found in the active
    tab's bucket throws a [TypeError], calls no setter and leaves the
    session, catalog included, untouched; when both are found, the only
    effect is to store a catalog that differs from the old one in that
    product alone, whose color list has the new color appended. *)
Theorem handleAddColor_appends (fd : FabricData) (a : AdminPanelState)
    (name hex : string) (now : N) (companyId productId : string)
    (s : Session) :
  name <> "" -> hex <> "" ->
  (findProduct (bucket fd (activeTab a)) companyId productId = None ->
   (exists reading,
       outcome (handleAddColor fd a (Some name) (Some hex) now
                  companyId productId) s = Throw (TypeError reading)) /\
   effects (handleAddColor fd a (Some name) (Some hex) now
              companyId productId) s = [] /\
   final (handleAddColor fd a (Some name) (Some hex) now
            companyId productId) s = s)
  /\
  (forall c p,
      find (fun c => FabricCompany.id c =? companyId) (bucket fd (activeTab a))
        = Some c ->
      find (fun p => Product.id p =? productId) (FabricCompany.products c)
        = Some p ->
      exists pre post ppre ppost,
        bucket fd (activeTab a) = pre ++ c :: post /\
        FabricCompany.products c = ppre ++ p :: ppost /\
        outcome (handleAddColor fd a (Some name) (Some hex) now
                   companyId productId) s = Ok tt /\
        effects (handleAddColor fd a (Some name) (Some hex) now
                   companyId productId) s
          = [SetFabricData
               (set_bucket fd (activeTab a)
                  (pre ++
                   FabricCompany.mk (FabricCompany.id c) (FabricCompany.name c)
                     (ppre ++
                      Product.mk (Product.id p) (Product.name p)
                        (Product.colors p
                         ++ [Color.mk (stamp "c-" now) name hex])
                      :: ppost)
                   :: post))] /\
        fabricData (final (handleAddColor fd a (Some name) (Some hex) now
                             companyId productId) s)
          = set_bucket fd (activeTab a)
              (pre ++
               FabricCompany.mk (FabricCompany.id c) (FabricCompany.name c)
                 (ppre ++
                  Product.mk (Product.id p) (Product.name p)
                    (Product.colors p ++ [Color.mk (stamp "c-" now) name hex])
                  :: ppost)
               :: post) /\
        findProduct
          (bucket (fabricData (final (handleAddColor fd a (Some name) (Some hex)
                                        now companyId productId) s))
                  (activeTab a))
          companyId productId
          = Some (Product.mk (Product.id p) (Product.name p)
                    (Product.colors p
                     ++ [Color.mk (stamp "c-" now) name hex])) /\
        (forall u,
            activeTab a <> u ->
            bucket (fabricData (final (handleAddColor fd a (Some name)
                                         (Some hex) now companyId productId) s))
                   u
              = bucket fd u)).
Proof.
  intros Hname Hhex.
  unfold outcome, effects, final, run, handleAddColor.
  rewrite (falsy_nonempty name Hname), (falsy_nonempty hex Hhex).
  cbv zeta. unfold findProduct. split.
  - destruct (find _ (bucket fd (activeTab a))) as [c|]; simpl.
    + intros ->. simpl. repeat split. now exists "colors".
    + intros _. repeat split. now exists "products".
  - intros c p Hc Hp. rewrite Hc. simpl. rewrite Hp. simpl.
    destruct (find_some_split _ _ _ Hc) as (pre & post & Hl & Hfc & Hpre).
    destruct (find_some_split _ _ _ Hp) as (ppre & ppost & Hpl & Hfp & Hppre).
    exists pre, post, ppre, ppost.
    split; [exact Hl|]. split; [exact Hpl|]. split; [reflexivity|].
    assert (Hnew :
      mutate_found (fun c => FabricCompany.id c =? companyId)
        (fun c =>
           FabricCompany.mk (FabricCompany.id c) (FabricCompany.name c)
             (mutate_found (fun p => Product.id p =? productId)
                (fun p =>
                   Product.mk (Product.id p) (Product.name p)
                     (push (Product.colors p)
                           (Color.mk (stamp "c-" now) name hex)))
                (FabricCompany.products c)))
        (bucket fd (activeTab a))
      = pre ++
        FabricCompany.mk (FabricCompany.id c) (FabricCompany.name c)
          (ppre ++
           Product.mk (Product.id p) (Product.name p)
             (Product.colors p ++ [Color.mk (stamp "c-" now) name hex])
           :: ppost)
        :: post).
    { rewrite Hl at 1.
      rewrite (mutate_found_split _ _ pre c post Hfc Hpre).
      rewrite Hpl at 1.
      now rewrite (mutate_found_split _ _ ppre p ppost Hfp Hppre). }
    split; [now rewrite <- Hnew|]. split; [now rewrite <- Hnew|]. split.
    + rewrite bucket_set_bucket_same.
      unfold findProduct.
      rewrite find_mutate_found with (x := c);
        [simpl | intros y Hy; exact Hy | exact Hc].
      rewrite find_mutate_found with (x := p);
        [reflexivity | intros y Hy; exact Hy | exact Hp].
    + intros u Hu. now apply bucket_set_bucket_other.
Qed.

Lemma handleAddColor_appends_witness :
  effects (handleAddColor MOCK_DATA (mkAdminPanel Curtains "")
             (Some "Midnight") (Some "#191970") 1700000000000
             "c-fc1" "c-p9") initialSession = [] /\
  outcome (handleAddColor MOCK_DATA (mkAdminPanel Curtains "")
             (Some "Midnight") (Some "#191970") 1700000000000
             "c-fc1" "c-p2") initialSession = Ok tt /\
  option_map (fun p => map Color.name (Product.colors p))
    (findProduct
       (bucket
          (fabricData
             (final (handleAddColor MOCK_DATA (mkAdminPanel Curtains "")
                       (Some "Midnight") (Some "#191970") 1700000000000
                       "c-fc1" "c-p2") initialSession))
          Curtains)
       "c-fc1" "c-p2")
    = Some ["Ivory Sheer"; "Champagne Glow"; "Midnight"].
Proof.
  assert (Hname : "Midnight" <> "") by discriminate.
  assert (Hhex : "#191970" <> "") by discriminate.
  split; [|split].
  - apply (proj1 (handleAddColor_appends MOCK_DATA (mkAdminPanel Curtains "")
                    "Midnight" "#191970" 1700000000000 "c-fc1" "c-p9"
                    initialSession Hname Hhex)).
    reflexivity.
  - destruct (proj2 (handleAddColor_appends MOCK_DATA
                       (mkAdminPanel Curtains "")
                       "Midnight" "#191970" 1700000000000 "c-fc1" "c-p2"
                       initialSession Hname Hhex) _ _ eq_refl eq_refl)
      as (pre & post & ppre & ppost & _ & _ & Hout & _).
    exact Hout.
  - reflexivity.
Defined.

(** * Further properties *)

(** ** Successful runs *)

(** A manual run whose two composites resolve stores both images with no
    recommendation text, shows the result screen on the day view and
    clears the loading flag; it does not touch the error cell, so a message
    left by an earlier failure stays displayed. *)
Theorem manual_run_success service s file type sel p c img img' :
  uploadedFile s = Some file ->
  productType s = Some type ->
  manualSelection s = Some sel ->
  selectedProduct (fabricData s) type sel = Some p ->
  find (fun c => Color.id c =? colorId sel) (Product.colors p) = Some c ->
  service (manualRequest s file type c p true) = Resolved img ->
  service (manualRequest s file type c p false) = Resolved img' ->
  issued (effects (runManualSimulation service s) s)
    = [manualRequest s file type c p true; manualRequest s file type c p false] /\
  simulationResult (final (runManualSimulation service s) s)
    = Some (mkResult (Some img) (Some img') None) /\
  step (final (runManualSimulation service s) s) = result /\
  activeResultView (final (runManualSimulation service s) s) = day /\
  isLoading (final (runManualSimulation service s) s) = false /\
  error (final (runManualSimulation service s) s) = error s.
Proof.
  intros Hf Ht Hs Hp Hc Hday Hnight.
  rewrite (proj2 (manual_final_replay service s)).
  rewrite (manual_log_success service s file type sel
             Hf Ht Hs p c Hp Hc img img' Hday Hnight).
  repeat split.
Qed.

Lemma manual_run_success_witness :
  simulationResult
    (final (runManualSimulation (geminiService ai_answers) configured)
           configured)
    = Some (mkResult (Some "aW1n") (Some "aW1n") None) /\
  step (final (runManualSimulation (geminiService ai_answers) configured)
              configured) = result.
Proof.
  destruct (manual_run_success (geminiService ai_answers) configured
              _ _ _ _ _ _ _
              eq_refl eq_refl eq_refl eq_refl eq_refl eq_refl eq_refl)
    as (_ & Hresult & Hstep & _).
  split; assumption.
Defined.

(** An automatic run whose three requests resolve stores both images
    together with the recommendation text and shows the result screen on
    the day view; the composites are requested under the fixed labels "AI
    suggested color" and "AI suggested style". *)
Theorem auto_run_success service s file type text img img' :
  uploadedFile s = Some file ->
  productType s = Some type ->
  service (autoRecommendation file type) = Resolved text ->
  service (autoRequest s file type true) = Resolved img ->
  service (autoRequest s file type false) = Resolved img' ->
  issued (effects (runAutoSimulation service s) s)
    = [GenerateRecommendation (UploadedFile.base64 file)
         (UploadedFile.type file) type;
       SimulateWindowCovering (UploadedFile.base64 file)
         (UploadedFile.type file) type
         "AI suggested color" "AI suggested style" true
         (match type with Curtains => Some (curtainStyle s) | _ => None end);
       SimulateWindowCovering (UploadedFile.base64 file)
         (UploadedFile.type file) type
         "AI suggested color" "AI suggested style" false
         (match type with Curtains => Some (curtainStyle s) | _ => None end)] /\
  simulationResult (final (runAutoSimulation service s) s)
    = Some (mkResult (Some img) (Some img') (Some text)) /\
  step (final (runAutoSimulation service s) s) = result /\
  activeResultView (final (runAutoSimulation service s) s) = day /\
  isLoading (final (runAutoSimulation service s) s) = false /\
  error (final (runAutoSimulation service s) s) = error s.
Proof.
  intros Hf Ht Hrec Hday Hnight.
  rewrite (proj2 (auto_final_replay service s)).
  rewrite (auto_log_success service s file type Hf Ht text img img'
             Hrec Hday Hnight).
  repeat split.
Qed.

Lemma auto_run_success_witness :
  simulationResult
    (final (runAutoSimulation (geminiService ai_answers) configured)
           configured)
    = Some (mkResult (Some "aW1n") (Some "aW1n")
                     (Some "Soft linen tones would suit this room.")) /\
  step (final (runAutoSimulation (geminiService ai_answers) configured)
              configured) = result.
Proof.
  destruct (auto_run_success (geminiService ai_answers) configured
              _ _ _ _ _
              eq_refl eq_refl eq_refl eq_refl eq_refl)
    as (_ & Hresult & Hstep & _).
  split; assumption.
Defined.

(** An automatic run reads nothing but the uploaded image, the product
    type and, for curtains, the curtain style: two sessions that agree on
    these produce the same log, whatever their manual selections and
    catalogs. *)
Theorem auto_run_ignores_selection service s1 s2 :
  uploadedFile s1 = uploadedFile s2 ->
  productType s1 = productType s2 ->
  (productType s1 = Some Curtains -> curtainStyle s1 = curtainStyle s2) ->
  effects (runAutoSimulation service s1) s1
    = effects (runAutoSimulation service s2) s2.
Proof.
  intros Hf Ht Hstyle. unfold_run. rewrite <- Hf, <- Ht.
  destruct (uploadedFile s1) as [file|]; [|reflexivity].
  destruct (productType s1) as [type|]; [|reflexivity].
  assert (Hs : match type with Curtains => Some (curtainStyle s1) | _ => None end
               = match type with Curtains => Some (curtainStyle s2) | _ => None end).
  { destruct type; trivial. now rewrite Hstyle. }
  rewrite <- Hs. run_step.
  destruct (service (GenerateRecommendation _ _ _)); [|reflexivity].
  destruct (service (SimulateWindowCovering _ _ _ _ _ true _));
    [|reflexivity].
  destruct (service (SimulateWindowCovering _ _ _ _ _ false _)); reflexivity.
Qed.

Lemma auto_run_ignores_selection_witness :
  effects (runAutoSimulation (geminiService ai_day_fails) configured)
          configured
    = effects (runAutoSimulation (geminiService ai_day_fails) stale_selection)
              stale_selection.
Proof.
  apply auto_run_ignores_selection; [reflexivity | reflexivity |].
  intros _. reflexivity.
Defined.

(** ** Choosing the mode *)

Lemma handleModeSelect_auto_log service s :
  effects (handleModeSelect service s Auto) s
    = SetSimulationMode (Some Auto)
      :: effects (runAutoSimulation service s) s /\
  final (handleModeSelect service s Auto) s
    = replay (effects (runAutoSimulation service s) s)
             (apply_session (SetSimulationMode (Some Auto)) s).
Proof.
  unfold handleModeSelect. unfold_run.
  destruct (uploadedFile s) as [file|]; [|split; reflexivity].
  destruct (productType s) as [type|]; [|split; reflexivity].
  run_step.
  destruct (service (GenerateRecommendation _ _ _)); [|split; reflexivity].
  destruct (service (SimulateWindowCovering _ _ _ _ _ true _));
    [|split; reflexivity].
  destruct (service (SimulateWindowCovering _ _ _ _ _ false _));
    split; reflexivity.
Qed.

(** Choosing the manual mode only records it: no request goes out and no
    other cell changes.  Choosing the automatic mode records it and then
    does exactly what an automatic run does. *)
Theorem handleModeSelect_runs service s :
  effects (handleModeSelect service s Manual) s
    = [SetSimulationMode (Some Manual)] /\
  final (handleModeSelect service s Manual) s
    = apply_session (SetSimulationMode (Some Manual)) s /\
  effects (handleModeSelect service s Auto) s
    = SetSimulationMode (Some Auto)
      :: effects (runAutoSimulation service s) s /\
  final (handleModeSelect service s Auto) s
    = replay (effects (runAutoSimulation service s) s)
             (apply_session (SetSimulationMode (Some Auto)) s).
Proof.
  split; [reflexivity|]. split; [reflexivity|].
  apply handleModeSelect_auto_log.
Qed.

(** ** Navigation *)

(** Going back from the configuration step and choosing the product type
    again does not resume the selection that was configured: whatever the
    selection was, it is replaced by the bucket's first company, that
    company's first product and that product's first color. *)
Theorem back_and_forth_resets_selection s type c p col :
  step s = configure ->
  first (bucket (fabricData s) type) = Some c ->
  first (FabricCompany.products c) = Some p ->
  first (Product.colors p) = Some col ->
  step (final (handleBack s) s) = select_product /\
  manualSelection (final (handleBack s) s) = manualSelection s /\
  step (final (handleProductSelect (final (handleBack s) s) type)
              (final (handleBack s) s)) = configure /\
  manualSelection (final (handleProductSelect (final (handleBack s) s) type)
                         (final (handleBack s) s))
    = Some (mkSelection (FabricCompany.id c) (Product.id p) (Color.id col)).
Proof.
  intros Hstep Hc Hp Hcol.
  assert (Hback : final (handleBack s) s = apply_session (SetStep select_product) s).
  { unfold final, run, handleBack. now rewrite Hstep. }
  rewrite Hback. split; [reflexivity|]. split; [reflexivity|].
  unfold final, run, handleProductSelect. simpl.
  destruct (bucket (fabricData s) type) as [|c' r]; [discriminate|].
  injection Hc as ->. simpl. rewrite Hp. simpl. rewrite Hcol. split; reflexivity.
Qed.

Lemma back_and_forth_resets_selection_witness :
  manualSelection
    (final (handleProductSelect
              (final (handleBack
                        (apply_session
                           (SetManualSelection
                              (Some (mkSelection "c-fc1" "c-p2" "c-c5")))
                           configured))
                     (apply_session
                        (SetManualSelection
                           (Some (mkSelection "c-fc1" "c-p2" "c-c5")))
                        configured))
              Curtains)
           (final (handleBack
                     (apply_session
                        (SetManualSelection
                           (Some (mkSelection "c-fc1" "c-p2" "c-c5")))
                        configured))
                  (apply_session
                     (SetManualSelection
                        (Some (mkSelection "c-fc1" "c-p2" "c-c5")))
                     configured)))
    = Some (mkSelection "c-fc1" "c-p1" "c-c1").
Proof.
  apply (back_and_forth_resets_selection
           (apply_session
              (SetManualSelection (Some (mkSelection "c-fc1" "c-p2" "c-c5")))
              configured)
           Curtains _ _ _ eq_refl eq_refl eq_refl eq_refl).
Defined.

(** ** The service wrapper *)

(** The first part carrying inline data decides the payload; parts without
    data before it are skipped, and a reply with no such part has none. *)
Theorem firstInlineData_first parts :
  (forall d,
      firstInlineData parts = Some d <->
      exists pre post,
        parts = pre ++ Some d :: post /\ Forall (fun x => x = None) pre) /\
  (firstInlineData parts = None <-> Forall (fun x => x = None) parts).
Proof.
  induction parts as [|[d'|] parts [IHsome IHnone]]; simpl.
  - split.
    + intros d. split; [discriminate|].
      intros (pre & post & H & _). now destruct pre.
    + split; constructor.
  - split.
    + intros d. split.
      * intros [= ->]. now exists [], parts.
      * intros (pre & post & H & Hpre). destruct pre as [|x pre].
        -- simpl in H. congruence.
        -- inversion Hpre; subst. discriminate H.
    + split; [discriminate|]. intros H. now inversion H.
  - split.
    + intros d. rewrite IHsome. split.
      * intros (pre & post & -> & Hpre). exists (None :: pre), post.
        split; [reflexivity|now constructor].
      * intros (pre & post & H & Hpre). destruct pre as [|x pre];
          [discriminate H|].
        injection H as _ ->. exists pre, post. split; trivial.
        now inversion Hpre.
    + rewrite IHnone. split.
      * intros H. now constructor.
      * intros H. now inversion H.
Qed.

Lemma geminiService_message ai r msg :
  geminiService ai r = Rejected msg ->
  msg = match kind r with
        | Recommendation =>
            "Failed to get a recommendation from the AI. Please try again."
        | DayComposite =>
            "Failed to generate the day simulation. The AI might be unable to process this image."
        | NightComposite =>
            "Failed to generate the night simulation. The AI might be unable to process this image."
        end.
Proof.
  destruct r as [b m t|b m t cn pn [|] st]; simpl;
    destruct (ai _) as [|text parts]; try discriminate;
    try (intros [= <-]; reflexivity);
    destruct (firstInlineData parts); try discriminate;
    intros [= <-]; reflexivity.
Qed.

(** A rejection's message depends on the kind of request only, and a reply
    that carries no image is rejected with the very message of a failed
    call: the caller cannot tell the two apart. *)
Theorem geminiService_rejections ai r :
  (forall msg,
      geminiService ai r = Rejected msg ->
      msg = match kind r with
            | Recommendation =>
                "Failed to get a recommendation from the AI. Please try again."
            | DayComposite =>
                "Failed to generate the day simulation. The AI might be unable to process this image."
            | NightComposite =>
                "Failed to generate the night simulation. The AI might be unable to process this image."
            end) /\
  (forall text parts,
      kind r <> Recommendation ->
      ai r = AiResponds text parts ->
      firstInlineData parts = None ->
      geminiService ai r = geminiService (fun _ => AiFails) r).
Proof.
  split.
  - apply geminiService_message.
  - intros text parts Hk Hr Hparts.
    destruct r as [b m t|b m t cn pn isDay st]; simpl in *; [congruence|].
    now rewrite Hr, Hparts.
Qed.

Lemma geminiService_rejections_witness :
  "Failed to generate the night simulation. The AI might be unable to process this image."
    = match kind (autoRequest configured
                    (UploadedFile.mk "aGVsbG8=" "window.jpg" "image/jpeg")
                    Curtains false) with
      | Recommendation =>
          "Failed to get a recommendation from the AI. Please try again."
      | DayComposite =>
          "Failed to generate the day simulation. The AI might be unable to process this image."
      | NightComposite =>
          "Failed to generate the night simulation. The AI might be unable to process this image."
      end /\
  geminiService (fun _ => AiResponds "No image for you." [None; None])
    (autoRequest configured
       (UploadedFile.mk "aGVsbG8=" "window.jpg" "image/jpeg") Curtains true)
  = geminiService (fun _ => AiFails)
      (autoRequest configured
         (UploadedFile.mk "aGVsbG8=" "window.jpg" "image/jpeg") Curtains true).
Proof.
  split.
  - apply (proj1 (geminiService_rejections ai_night_fails
                    (autoRequest configured
                       (UploadedFile.mk "aGVsbG8=" "window.jpg" "image/jpeg")
                       Curtains false))).
    reflexivity.
  - apply (proj2 (geminiService_rejections
                    (fun _ => AiResponds "No image for you." [None; None])
                    (autoRequest configured
                       (UploadedFile.mk "aGVsbG8=" "window.jpg" "image/jpeg")
                       Curtains true))
             "No image for you." [None; None]);
      [discriminate | reflexivity | reflexivity].
Defined.

(** With the service wrapper in place, the error cell after a manual run
    holds what it held before, the validation message, or one of the two
    composite messages; after an automatic run what it held before or one
    of the three service messages. *)
Theorem run_error_messages ai s :
  In (error (final (runManualSimulation (geminiService ai) s) s))
     [error s;
      Some "Could not find product details.";
      Some "Failed to generate the day simulation. The AI might be unable to process this image.";
      Some "Failed to generate the night simulation. The AI might be unable to process this image."]
  /\
  In (error (final (runAutoSimulation (geminiService ai) s) s))
     [error s;
      Some "Failed to get a recommendation from the AI. Please try again.";
      Some "Failed to generate the day simulation. The AI might be unable to process this image.";
      Some "Failed to generate the night simulation. The AI might be unable to process this image."].
Proof.
  split.
  - rewrite (proj2 (manual_final_replay (geminiService ai) s)).
    destruct (manual_log_cases (geminiService ai) s)
      as [H|file type sel Hf Ht Hs Hres|file type c p msg Hd
          |file type c p img msg Hd Hn|file type c p img img' Hd Hn];
      unfold replay; simpl.
    + now left.
    + right. now left.
    + apply geminiService_message in Hd. subst msg.
      right. right. now left.
    + apply geminiService_message in Hn. subst msg.
      right. right. right. now left.
    + now left.
  - rewrite (proj2 (auto_final_replay (geminiService ai) s)).
    destruct (auto_log_cases (geminiService ai) s)
      as [H|file type msg Hr|file type text msg Hr Hd
          |file type text img msg Hr Hd Hn|file type text img img' Hr Hd Hn];
      unfold replay; simpl.
    + now left.
    + apply geminiService_message in Hr. subst msg.
      right. now left.
    + apply geminiService_message in Hd. subst msg.
      right. right. now left.
    + apply geminiService_message in Hn. subst msg.
      right. right. right. now left.
    + now left.
Qed.

(** ** Data URLs *)

Lemma append_assoc_str (a b c : string) : ((a ++ b) ++ c = a ++ (b ++ c))%string.
Proof. induction a as [|x a IH]; simpl; [reflexivity|now rewrite IH]. Qed.

Lemma lacks_append sep a b :
  lacks sep (a ++ b) = lacks sep a && lacks sep b.
Proof.
  induction a as [|x a IH]; simpl; [reflexivity|].
  rewrite IH. now rewrite andb_assoc.
Qed.

Lemma js_split_lacks sep s : lacks sep s = true -> js_split sep s = [s].
Proof.
  induction s as [|c s IH]; simpl; [reflexivity|].
  destruct (Ascii.eqb c sep); simpl; [discriminate|].
  intros H. now rewrite (IH H).
Qed.

Lemma js_split_at sep a b :
  lacks sep a = true ->
  js_split sep (a ++ String sep b) = a :: js_split sep b.
Proof.
  induction a as [|c a IH]; simpl.
  - intros _. now rewrite Ascii.eqb_refl.
  - destruct (Ascii.eqb c sep); simpl; [discriminate|].
    intros H. now rewrite (IH H).
Qed.

Lemma js_split_head sep s : exists h t, js_split sep s = h :: t.
Proof.
  induction s as [|c s (h & t & IH)]; simpl; [now exists "", []|].
  destruct (Ascii.eqb c sep); [now exists "", (js_split sep s)|].
  rewrite IH. now exists (String c h), t.
Qed.

Lemma js_split_second sep s :
  lacks sep s = false -> exists a b r, js_split sep s = a :: b :: r.
Proof.
  induction s as [|c s IH]; simpl; [discriminate|].
  destruct (Ascii.eqb c sep); simpl.
  - intros _. destruct (js_split_head sep s) as (h & t & ->).
    now exists "", h, t.
  - intros H. destruct (IH H) as (a & b & r & ->).
    now exists (String c a), b, r.
Qed.

(** The payload kept of a data URL is what stands between its first comma
    and the next one (or the end); a string without a comma has none.  For
    a MIME type and a payload free of commas, the payload of
    [data:<type>;base64,<payload>] is the payload, and the original image
    rebuilt from the stored file is that same URL. *)
Theorem data_url_round_trip :
  (forall url, base64Of url = None <-> lacks "," url = true) /\
  (forall head payload rest,
      lacks "," head = true -> lacks "," payload = true ->
      base64Of (head ++ "," ++ payload) = Some payload /\
      base64Of (head ++ "," ++ payload ++ "," ++ rest) = Some payload) /\
  (forall mime payload name,
      lacks "," mime = true -> lacks "," payload = true ->
      base64Of ("data:" ++ mime ++ ";base64," ++ payload) = Some payload /\
      originalImage (Some (UploadedFile.mk payload name mime))
        = ("data:" ++ mime ++ ";base64," ++ payload)%string).
Proof.
  assert (Hcut : forall head payload rest,
             lacks "," head = true -> lacks "," payload = true ->
             base64Of (head ++ "," ++ payload) = Some payload /\
             base64Of (head ++ "," ++ payload ++ "," ++ rest) = Some payload).
  { intros head payload rest Hh Hp. unfold base64Of. simpl append.
    rewrite !(js_split_at "," head) by exact Hh.
    rewrite (js_split_lacks "," payload Hp).
    now rewrite (js_split_at "," payload rest Hp). }
  split; [|split].
  - intros url. unfold base64Of. split.
    + intros H. destruct (lacks "," url) eqn:E; [reflexivity|].
      destruct (js_split_second "," url E) as (a & b & r & Hs).
      rewrite Hs in H. discriminate H.
    + intros H. now rewrite (js_split_lacks "," url H).
  - exact Hcut.
  - intros mime payload name Hm Hp. split; [|reflexivity].
    replace ("data:" ++ mime ++ ";base64," ++ payload)%string
      with (("data:" ++ mime ++ ";base64") ++ "," ++ payload)%string.
    + apply (Hcut _ payload ""); trivial.
      simpl. rewrite lacks_append, Hm. reflexivity.
    + simpl. now rewrite append_assoc_str.
Qed.

Lemma data_url_round_trip_witness :
  base64Of "data:image/jpeg;base64,aGVsbG8=" = Some "aGVsbG8=" /\
  base64Of "no payload here" = None.
Proof.
  destruct data_url_round_trip as (Hnone & _ & Hfile).
  split.
  - apply (Hfile "image/jpeg" "aGVsbG8=" "window.jpg"); reflexivity.
  - apply Hnone. reflexivity.
Defined.

(** ** The result view *)

(** A rendered toggle leads to a generated image, never to the fallback:
    for a view whose toggle is shown, what is displayed is the PNG data URL
    of that view's image; the original view, and any view whose image is
    absent or empty, displays the original image. *)
Theorem displayedImage_toggle (r : SimulationResult) (originalImg : string) :
  (forall img,
      dayImage r = Some img -> toggleRendered r day = true ->
      displayedImage day r originalImg
        = ("data:image/png;base64," ++ img)%string) /\
  (forall img,
      nightImage r = Some img -> toggleRendered r night = true ->
      displayedImage night r originalImg
        = ("data:image/png;base64," ++ img)%string) /\
  (forall v,
      toggleRendered r v = false -> displayedImage v r originalImg = originalImg) /\
  displayedImage original r originalImg = originalImg.
Proof.
  split; [|split; [|split]].
  - intros img H. unfold toggleRendered, displayedImage. rewrite H.
    now destruct (falsy (Some img)).
  - intros img H. unfold toggleRendered, displayedImage. rewrite H.
    now destruct (falsy (Some img)).
  - intros [| |]; unfold toggleRendered, displayedImage;
      try discriminate.
    + now destruct (falsy (dayImage r)).
    + now destruct (falsy (nightImage r)).
  - reflexivity.
Qed.

Lemma displayedImage_toggle_witness :
  displayedImage night (mkResult (Some "") (Some "bmlnaHQ=") None)
                 "data:image/jpeg;base64,aGVsbG8="
    = "data:image/png;base64,bmlnaHQ=" /\
  displayedImage day (mkResult (Some "") (Some "bmlnaHQ=") None)
                 "data:image/jpeg;base64,aGVsbG8="
    = "data:image/jpeg;base64,aGVsbG8=".
Proof.
  destruct (displayedImage_toggle
              (mkResult (Some "") (Some "bmlnaHQ=") None)
              "data:image/jpeg;base64,aGVsbG8=") as (_ & Hnight & Hoff & _).
  split.
  - apply (Hnight "bmlnaHQ="); reflexivity.
  - apply (Hoff day). reflexivity.
Defined.

(** ** The catalog only grows *)

Lemma Forall2_same {A} (R : A -> A -> Prop) (l : list A) :
  (forall x, R x x) -> Forall2 R l l.
Proof. intros H. induction l; constructor; auto. Qed.

Lemma extends_list_refl {A} (R : A -> A -> Prop) (l : list A) :
  (forall x, R x x) -> extends_list R l l.
Proof.
  intros H. exists l, []. split; [now rewrite app_nil_r|].
  now apply Forall2_same.
Qed.

Lemma extends_list_push {A} (R : A -> A -> Prop) (l : list A) (x : A) :
  (forall x, R x x) -> extends_list R l (push l x).
Proof. intros H. exists l, [x]. split; [reflexivity|now apply Forall2_same]. Qed.

Lemma extends_list_mutate_found {A} (R : A -> A -> Prop) f g (l : list A) :
  (forall x, R x x) -> (forall x, R x (g x)) ->
  extends_list R l (mutate_found f g l).
Proof.
  intros Hrefl Hg. exists (mutate_found f g l), [].
  split; [now rewrite app_nil_r|].
  induction l as [|x l IH]; simpl; [constructor|].
  destruct (f x); constructor; auto. now apply Forall2_same.
Qed.

Lemma extends_list_trans {A} (R : A -> A -> Prop) (l1 l2 l3 : list A) :
  (forall x y z, R x y -> R y z -> R x z) ->
  extends_list R l1 l2 -> extends_list R l2 l3 -> extends_list R l1 l3.
Proof.
  intros Htrans (keep & added & -> & H12) (keep' & added' & -> & H23).
  apply Forall2_app_inv_l in H23 as (k1 & k2 & Hk1 & Hk2 & ->).
  exists k1, (k2 ++ added'). split; [now rewrite app_assoc|].
  clear Hk2. revert k1 Hk1.
  induction H12 as [|x y l keep Hxy H12 IH]; intros k1 Hk1.
  - inversion Hk1. constructor.
  - inversion Hk1 as [|y' z keep'' k1' Hyz Hrest]; subst.
    constructor; [eapply Htrans; eassumption|now apply IH].
Qed.

Lemma product_grows_refl p : product_grows p p.
Proof. repeat split. exists []. now rewrite app_nil_r. Qed.

Lemma product_grows_trans p1 p2 p3 :
  product_grows p1 p2 -> product_grows p2 p3 -> product_grows p1 p3.
Proof.
  intros (Hi & Hn & a & Ha) (Hi' & Hn' & a' & Ha').
  repeat split; try congruence.
  exists (a ++ a'). now rewrite Ha', Ha, app_assoc.
Qed.

Lemma company_grows_refl c : company_grows c c.
Proof.
  repeat split. apply extends_list_refl, product_grows_refl.
Qed.

Lemma company_grows_trans c1 c2 c3 :
  company_grows c1 c2 -> company_grows c2 c3 -> company_grows c1 c3.
Proof.
  intros (Hi & Hn & H) (Hi' & Hn' & H').
  repeat split; try congruence.
  eapply extends_list_trans; [exact product_grows_trans| |]; eassumption.
Qed.

Lemma catalog_grows_refl fd : catalog_grows fd fd.
Proof. intros t. apply extends_list_refl, company_grows_refl. Qed.

Lemma catalog_grows_trans fd1 fd2 fd3 :
  catalog_grows fd1 fd2 -> catalog_grows fd2 fd3 -> catalog_grows fd1 fd3.
Proof.
  intros H H' t.
  eapply extends_list_trans; [exact company_grows_trans|apply H|apply H'].
Qed.

Lemma catalog_grows_set_bucket fd t l :
  extends_list company_grows (bucket fd t) l ->
  catalog_grows fd (set_bucket fd t l).
Proof.
  intros H u. destruct t, u; simpl; trivial;
    apply extends_list_refl, company_grows_refl.
Qed.

Lemma catalog_step_grows trim fd ac : catalog_grows fd (catalog_step trim fd ac).
Proof.
  destruct ac as [a [now|cid name now|cid pid name hex now]];
    unfold catalog_step, final, run; simpl.
  - unfold handleAddCompany. destruct (trim (newItemName a) =? ""); simpl;
      [apply catalog_grows_refl|].
    apply catalog_grows_set_bucket, extends_list_push, company_grows_refl.
  - unfold handleAddProduct. destruct name as [name|]; simpl;
      [|apply catalog_grows_refl].
    destruct (name =? ""); simpl; [apply catalog_grows_refl|].
    destruct (find _ _); simpl; [|apply catalog_grows_refl].
    apply catalog_grows_set_bucket, extends_list_mutate_found;
      [apply company_grows_refl|].
    intros c. repeat split. simpl.
    apply extends_list_push, product_grows_refl.
  - unfold handleAddColor. destruct (falsy name) eqn:Hn; simpl;
      [apply catalog_grows_refl|].
    destruct (falsy hex) eqn:Hh; simpl; [apply catalog_grows_refl|].
    destruct name as [name|]; [|discriminate].
    destruct hex as [hex|]; [|discriminate]. simpl.
    destruct (find _ _) as [c|]; simpl; [|apply catalog_grows_refl].
    destruct (find _ _); simpl; [|apply catalog_grows_refl].
    apply catalog_grows_set_bucket, extends_list_mutate_found;
      [apply company_grows_refl|].
    intros c'. repeat split. simpl.
    apply extends_list_mutate_found; [apply product_grows_refl|].
    intros p'. repeat split. simpl. now exists [Color.mk (stamp "c-" now) name hex].
Qed.

Lemma catalog_steps_grow trim clicks fd :
  catalog_grows fd (fold_left (catalog_step trim) clicks fd).
Proof.
  revert fd. induction clicks as [|ac clicks IH]; intros fd; simpl.
  - apply catalog_grows_refl.
  - eapply catalog_grows_trans; [apply catalog_step_grows|apply IH].
Qed.

(** The admin panel is append-only.  Whatever is clicked, and whether the
    handler succeeds or throws, every company and product that was in the
    catalog is still there afterwards, at the same position of the same
    tab and with the same id and name; companies, products and colors are
    only ever added at the end of their list.  So every catalog the
    application can hold contains the seed catalog in this sense. *)
Theorem admin_append_only trim :
  (forall fd ac, catalog_grows fd (catalog_step trim fd ac)) /\
  (forall clicks, catalog_grows MOCK_DATA (catalog_after trim clicks)).
Proof.
  split.
  - apply catalog_step_grows.
  - intros clicks. apply catalog_steps_grow.
Qed.

Lemma find_app_some {A} (f : A -> bool) (l added : list A) (x : A) :
  find f l = Some x -> find f (l ++ added) = Some x.
Proof.
  unfold find. induction l as [|y l IH]; simpl; [discriminate|].
  destruct (f y); auto.
Qed.

Lemma find_grows {A} (R : A -> A -> Prop) (f : A -> bool) (l l' : list A) x :
  (forall y y', R y y' -> f y' = f y) ->
  extends_list R l l' ->
  find f l = Some x ->
  exists x', find f l' = Some x' /\ R x x'.
Proof.
  intros Hf (keep & added & -> & H) Hx.
  enough (exists x', find f keep = Some x' /\ R x x') as (x' & Hx' & HR).
  { exists x'. split; [now apply find_app_some|exact HR]. }
  unfold find in *. induction H as [|y y' l keep Hyy' H IH]; simpl in *;
    [discriminate|].
  rewrite (Hf _ _ Hyy'). destruct (f y).
  - injection Hx as <-. now exists y'.
  - now apply IH.
Qed.

Lemma resolves_grows fd fd' t sel :
  catalog_grows fd fd' -> resolves fd t sel = true -> resolves fd' t sel = true.
Proof.
  intros Hg. unfold resolves, selectedProduct, selectedCompany, companies.
  destruct (find _ (bucket fd t)) as [c|] eqn:Hc; [|discriminate].
  destruct (find _ (FabricCompany.products c)) as [p|] eqn:Hp; [|discriminate].
  destruct (find _ (Product.colors p)) as [col|] eqn:Hcol; [|discriminate].
  intros _.
  destruct (find_grows company_grows _ _ _ c
              (fun y y' (H : company_grows y y') =>
                 f_equal (fun i => i =? fabricCompanyId sel) (proj1 H))
              (Hg t) Hc)
    as (c' & -> & _ & _ & Hps).
  destruct (find_grows product_grows _ _ _ p
              (fun y y' (H : product_grows y y') =>
                 f_equal (fun i => i =? productId sel) (proj1 H))
              Hps Hp)
    as (p' & -> & _ & _ & added & ->).
  now rewrite (find_app_some _ _ added _ Hcol).
Qed.

(** Additions in the admin panel never invalidate a selection: a triple
    that resolves in the catalog still resolves after any sequence of admin
    clicks. *)
Theorem admin_keeps_selection_valid trim clicks fd t sel :
  resolves fd t sel = true ->
  resolves (fold_left (catalog_step trim) clicks fd) t sel = true.
Proof. apply resolves_grows, catalog_steps_grow. Qed.

Lemma admin_keeps_selection_valid_witness :
  resolves
    (fold_left (catalog_step (fun s => s))
       [(mkAdminPanel Curtains "Acme", AddCompanyClick 1700000000000);
        (mkAdminPanel Curtains "",
         AddColorClick "c-fc1" "c-p1" (Some "Midnight") (Some "#191970")
                       1700000000001)]
       MOCK_DATA)
    Curtains (mkSelection "c-fc1" "c-p1" "c-c2") = true.
Proof. apply admin_keeps_selection_valid. reflexivity. Defined.

(** ** Admin: adding a company or a product *)

Lemma find_push_fresh {A} (f : A -> bool) (l : list A) (x : A) :
  find f l = None -> f x = true -> find f (push l x) = Some x.
Proof.
  unfold find, push. induction l as [|y l IH]; simpl.
  - intros _ ->. reflexivity.
  - destruct (f y); [discriminate|]. exact IH.
Qed.

(** With a product name entered, adding a product under a company id that
    is not found in the active tab's bucket throws and stores nothing;
    under one that is found, the only effect is to store a catalog in which
    the first company carrying that id has one more product, last in its
    list, with the entered name, the id "p-" followed by the clock reading,
    and no color yet; the other tabs are untouched. *)
Theorem handleAddProduct_appends (fd : FabricData) (a : AdminPanelState)
    (name : string) (now : N) (companyId : string) (s : Session) :
  name <> "" ->
  (find (fun c => FabricCompany.id c =? companyId) (bucket fd (activeTab a))
     = None ->
   outcome (handleAddProduct fd a (Some name) now companyId) s
     = Throw (TypeError "products") /\
   effects (handleAddProduct fd a (Some name) now companyId) s = [] /\
   final (handleAddProduct fd a (Some name) now companyId) s = s)
  /\
  (forall c,
      find (fun c => FabricCompany.id c =? companyId) (bucket fd (activeTab a))
        = Some c ->
      exists pre post,
        bucket fd (activeTab a) = pre ++ c :: post /\
        outcome (handleAddProduct fd a (Some name) now companyId) s = Ok tt /\
        effects (handleAddProduct fd a (Some name) now companyId) s
          = [SetFabricData
               (set_bucket fd (activeTab a)
                  (pre ++
                   FabricCompany.mk (FabricCompany.id c) (FabricCompany.name c)
                     (FabricCompany.products c
                      ++ [Product.mk (stamp "p-" now) name []])
                   :: post))] /\
        bucket (fabricData (final (handleAddProduct fd a (Some name) now
                                     companyId) s)) (activeTab a)
          = pre ++
            FabricCompany.mk (FabricCompany.id c) (FabricCompany.name c)
              (FabricCompany.products c
               ++ [Product.mk (stamp "p-" now) name []])
            :: post /\
        (forall u,
            activeTab a <> u ->
            bucket (fabricData (final (handleAddProduct fd a (Some name) now
                                         companyId) s)) u
              = bucket fd u)).
Proof.
  intros Hname. apply String.eqb_neq in Hname.
  unfold outcome, effects, final, run, handleAddProduct.
  rewrite Hname. cbv zeta. split.
  - intros ->. repeat split.
  - intros c Hc. rewrite Hc. simpl.
    destruct (find_some_split _ _ _ Hc) as (pre & post & Hl & Hfc & Hpre).
    exists pre, post. split; [exact Hl|]. split; [reflexivity|].
    assert (Hnew :
      mutate_found (fun c => FabricCompany.id c =? companyId)
        (fun c =>
           FabricCompany.mk (FabricCompany.id c) (FabricCompany.name c)
             (push (FabricCompany.products c)
                   (Product.mk (stamp "p-" now) name [])))
        (bucket fd (activeTab a))
      = pre ++
        FabricCompany.mk (FabricCompany.id c) (FabricCompany.name c)
          (FabricCompany.products c ++ [Product.mk (stamp "p-" now) name []])
        :: post).
    { rewrite Hl at 1. now rewrite (mutate_found_split _ _ pre c post Hfc Hpre). }
    split; [now rewrite <- Hnew|]. split.
    + now rewrite bucket_set_bucket_same.
    + intros u Hu. now apply bucket_set_bucket_other.
Qed.

Lemma handleAddProduct_appends_witness :
  outcome (handleAddProduct MOCK_DATA (mkAdminPanel RollerBlinds "")
             (Some "Day and Night") 1700000000000 "c-fc1") initialSession
    = Throw (TypeError "products") /\
  outcome (handleAddProduct MOCK_DATA (mkAdminPanel RollerBlinds "")
             (Some "Day and Night") 1700000000000 "rb-fc2") initialSession
    = Ok tt.
Proof.
  assert (Hname : "Day and Night" <> "") by discriminate.
  split.
  - apply (proj1 (handleAddProduct_appends MOCK_DATA
                    (mkAdminPanel RollerBlinds "") "Day and Night"
                    1700000000000 "c-fc1" initialSession Hname)).
    reflexivity.
  - destruct (proj2 (handleAddProduct_appends MOCK_DATA
                       (mkAdminPanel RollerBlinds "") "Day and Night"
                       1700000000000 "rb-fc2" initialSession Hname)
                _ eq_refl)
      as (pre & post & _ & Hout & _).
    exact Hout.
Defined.

Lemma append_cancel_l (a b c : string) : (a ++ b = a ++ c)%string -> b = c.
Proof.
  induction a as [|x a IH]; simpl; [trivial|].
  intros [= H]. now apply IH.
Qed.

(** Generated ids are as distinct as the clock readings they are made of:
    under one prefix, two readings give the same id only when they are
    equal. *)
Theorem stamp_injective prefix n m :
  stamp prefix n = stamp prefix m -> n = m.
Proof.
  unfold stamp. intros H. apply append_cancel_l in H.
  apply DecimalN.Unsigned.to_uint_inj.
  assert (Hn := NilEmpty.usu (N.to_uint n)).
  rewrite H, NilEmpty.usu in Hn. now injection Hn.
Qed.

Lemma stamp_injective_witness : 1700000000000%N = 1700000000000%N.
Proof. apply (stamp_injective "fc-"). reflexivity. Defined.

(** A company that has just been added is a trap in the configuration
    panel.  When the typed name is not blank and no company of the active
    tab carries the generated id yet, the stored catalog has the new
    company, without products, last in that tab; it is found under its id,
    and choosing it as fabric company throws on the missing first product
    without storing any selection. *)
Theorem fresh_company_cannot_be_chosen trim fd a now sel s :
  (trim (newItemName a) =? "") = false ->
  find (fun c => FabricCompany.id c =? stamp "fc-" now)
       (bucket fd (activeTab a)) = None ->
  bucket (catalog_step trim fd (a, AddCompanyClick now)) (activeTab a)
    = bucket fd (activeTab a)
      ++ [FabricCompany.mk (stamp "fc-" now) (newItemName a) []] /\
  find (fun c => FabricCompany.id c =? stamp "fc-" now)
       (bucket (catalog_step trim fd (a, AddCompanyClick now)) (activeTab a))
    = Some (FabricCompany.mk (stamp "fc-" now) (newItemName a) []) /\
  outcome (handleSelectionChange
             (catalog_step trim fd (a, AddCompanyClick now)) (activeTab a)
             sel KFabricCompanyId (stamp "fc-" now)) s
    = Throw (TypeError "id") /\
  effects (handleSelectionChange
             (catalog_step trim fd (a, AddCompanyClick now)) (activeTab a)
             sel KFabricCompanyId (stamp "fc-" now)) s
    = [].
Proof.
  intros Hname Hfresh.
  assert (Hb : bucket (catalog_step trim fd (a, AddCompanyClick now))
                      (activeTab a)
               = push (bucket fd (activeTab a))
                      (FabricCompany.mk (stamp "fc-" now) (newItemName a) [])).
  { unfold catalog_step, final, run. simpl. unfold handleAddCompany.
    rewrite Hname. simpl. apply bucket_set_bucket_same. }
  assert (Hfound :
    find (fun c => FabricCompany.id c =? stamp "fc-" now)
         (bucket (catalog_step trim fd (a, AddCompanyClick now)) (activeTab a))
    = Some (FabricCompany.mk (stamp "fc-" now) (newItemName a) [])).
  { rewrite Hb. apply find_push_fresh; [exact Hfresh|]. apply String.eqb_refl. }
  split; [exact Hb|]. split; [exact Hfound|].
  unfold outcome, effects, run, handleSelectionChange, newSelection, companies.
  simpl. rewrite Hfound. split; reflexivity.
Qed.

Lemma fresh_company_cannot_be_chosen_witness :
  outcome (handleSelectionChange
             (catalog_step (fun s => s) MOCK_DATA
                (mkAdminPanel Curtains "Acme", AddCompanyClick 1700000000000))
             Curtains (mkSelection "c-fc1" "c-p1" "c-c1")
             KFabricCompanyId (stamp "fc-" 1700000000000)) initialSession
    = Throw (TypeError "id").
Proof.
  apply (fresh_company_cannot_be_chosen (fun s => s) MOCK_DATA
           (mkAdminPanel Curtains "Acme") 1700000000000
           (mkSelection "c-fc1" "c-p1" "c-c1") initialSession);
    reflexivity.
Defined.

(** ** The transition system keeps the session sound *)

Lemma sound_parts s :
  sound s = true <->
  seeded (fabricData s) = true /\ selection_ok s = true /\ result_ok s = true.
Proof.
  unfold sound. rewrite !andb_true_iff. tauto.
Qed.

Lemma cut_quiet l : issued l = [] -> cut l = (l, []).
Proof.
  induction l as [|e l IH]; simpl; [reflexivity|].
  destruct e; simpl; try discriminate; intros H; now rewrite (IH H).
Qed.

Lemma cut_cons e l :
  match e with Issued _ => False | _ => True end ->
  cut (e :: l) = (e :: fst (cut l), snd (cut l)).
Proof. destruct e; simpl; try contradiction; now destruct (cut l). Qed.

Lemma replay_cons e l s : replay (e :: l) s = replay l (apply_session e s).
Proof. reflexivity. Qed.

Lemma cut_sound l :
  forall have away st,
    tail_ok have away l = true ->
    sound st = true ->
    (have = true -> simulationResult st <> None) ->
    (away = true -> step st <> result) ->
    sound (replay (fst (cut l)) st) = true /\
    tail_ok false false (snd (cut l)) = true.
Proof.
  induction l as [|e l IH]; intros have away st Hl Hst Hhave Haway.
  - now split.
  - assert (Hquiet :
      forall e',
        fabricData (apply_session e' st) = fabricData st ->
        productType (apply_session e' st) = productType st ->
        manualSelection (apply_session e' st) = manualSelection st ->
        step (apply_session e' st) = step st ->
        simulationResult (apply_session e' st) = simulationResult st ->
        sound (apply_session e' st) = true).
    { intros e' Hfd Hpt Hms Hstep Hres. rewrite sound_parts in *.
      unfold selection_ok, result_ok in *.
      now rewrite Hfd, Hpt, Hms, Hstep, Hres. }
    destruct e as [x|x|x|x|x|[res|]|x|x|x|x|x|x|x|x|r|r o]; simpl in Hl;
      try discriminate Hl;
      try (rewrite cut_cons by exact I; cbn [fst snd]; rewrite replay_cons);
      try (apply (IH have away);
           [exact Hl | apply Hquiet; reflexivity | exact Hhave | exact Haway]).
    + (* SetStep *)
      assert (Hs : sound (apply_session (SetStep x) st) = true
                   /\ tail_ok have (match x with result => false | _ => true end)
                              l = true).
      { rewrite sound_parts in *. unfold selection_ok, result_ok in *. simpl.
        destruct Hst as (H1 & H2 & H3). destruct x; simpl in *;
          try (now repeat split).
        apply andb_prop in Hl as [Hh Hl]. repeat split; trivial.
        destruct (simulationResult st); [reflexivity|].
        now destruct (Hhave Hh). }
      destruct Hs as [Hs Hl'].
      apply (IH have _ _ Hl' Hs Hhave). simpl. now destruct x.
    + (* SetSimulationResult (Some res) *)
      assert (Hs : sound (apply_session (SetSimulationResult (Some res)) st)
                   = true).
      { rewrite sound_parts in *. unfold selection_ok, result_ok in *. simpl.
        destruct Hst as (H1 & H2 & H3). repeat split; trivial.
        now destruct (step st). }
      apply (IH true away _ Hl Hs); [discriminate|exact Haway].
    + (* SetSimulationResult None *)
      apply andb_prop in Hl as [Ha Hl].
      assert (Hs : sound (apply_session (SetSimulationResult None) st) = true).
      { rewrite sound_parts in *. unfold selection_ok, result_ok in *. simpl.
        destruct Hst as (H1 & H2 & H3). repeat split; trivial.
        specialize (Haway Ha). now destruct (step st). }
      apply (IH false away _ Hl Hs); [discriminate|exact Haway].
    + (* Issued *)
      simpl. now split.
Qed.

Lemma manual_log_tail_ok service s :
  tail_ok false false (effects (runManualSimulation service s) s) = true.
Proof. destruct (manual_log_cases service s); reflexivity. Qed.

Lemma auto_log_tail_ok service s :
  tail_ok false false (effects (runAutoSimulation service s) s) = true.
Proof. destruct (auto_log_cases service s); reflexivity. Qed.

Lemma quiet_sound log s :
  issued log = [] ->
  sound (replay log s) = true ->
  sound (replay (fst (cut log)) s) = true /\
  tail_ok false false (snd (cut log)) = true.
Proof. intros Hq Hs. rewrite (cut_quiet log Hq). now split. Qed.

Lemma first_triple_resolves fd t c p col :
  first (bucket fd t) = Some c ->
  first (FabricCompany.products c) = Some p ->
  first (Product.colors p) = Some col ->
  resolves fd t (mkSelection (FabricCompany.id c) (Product.id p) (Color.id col))
    = true.
Proof.
  intros Hc Hp Hcol.
  apply resolves_intro with (c := c) (p := p) (col := col); simpl;
    apply find_first; trivial; apply String.eqb_refl.
Qed.

Lemma mem_find {A} (key : A -> string) (v : string) (l : list A) :
  mem v (map key l) = true ->
  exists x, find (fun y => key y =? v) l = Some x.
Proof.
  unfold mem, find. induction l as [|y l IH]; simpl; [discriminate|].
  rewrite (String.eqb_sym v (key y)).
  destruct (key y =? v); simpl; [now exists y|exact IH].
Qed.

(** Whatever [handleSelectionChange] stores for a value its controls can
    deliver is a triple that resolves. *)
Lemma newSelection_resolves fd t sel key v sel' :
  offered fd t sel key v = true ->
  newSelection fd t sel key v = Ok sel' ->
  resolves fd t sel' = true.
Proof.
  destruct key; unfold offered, newSelection; simpl.
  - intros _.
    destruct (find _ (companies fd t)) as [c|] eqn:Hc; simpl; [|discriminate].
    destruct (first (FabricCompany.products c)) as [p|] eqn:Hp; simpl;
      [|discriminate].
    destruct (first (Product.colors p)) as [col|] eqn:Hcol; simpl;
      [|discriminate].
    intros [= <-].
    apply resolves_intro with (c := c) (p := p) (col := col); simpl; trivial;
      apply find_first; trivial; apply String.eqb_refl.
  - intros _.
    destruct (selectedCompany fd t sel) as [c|] eqn:Hc; simpl; [|discriminate].
    destruct (find _ (FabricCompany.products c)) as [p|] eqn:Hp; simpl;
      [|discriminate].
    destruct (first (Product.colors p)) as [col|] eqn:Hcol; simpl;
      [|discriminate].
    intros [= <-].
    apply resolves_intro with (c := c) (p := p) (col := col); simpl; trivial.
    apply find_first; trivial. apply String.eqb_refl.
  - intros Hmem [= <-]. revert Hmem.
    unfold resolves, selectedProduct, selectedCompany. simpl.
    destruct (find _ (companies fd t)) as [c|]; [|discriminate].
    destruct (find _ (FabricCompany.products c)) as [p|]; [|discriminate].
    intros Hmem.
    destruct (mem_find Color.id v (Product.colors p) Hmem) as [col ->].
    reflexivity.
Qed.

(** An admin click changes nothing of the session but the catalog, which
    becomes what [catalog_step] computes; it sends no request. *)
Lemma adminClick_replay trim s a c :
  issued (effects (adminClick trim (fabricData s) a c) s) = [] /\
  fabricData (replay (effects (adminClick trim (fabricData s) a c) s) s)
    = catalog_step trim (fabricData s) (a, c) /\
  productType (replay (effects (adminClick trim (fabricData s) a c) s) s)
    = productType s /\
  manualSelection (replay (effects (adminClick trim (fabricData s) a c) s) s)
    = manualSelection s /\
  step (replay (effects (adminClick trim (fabricData s) a c) s) s) = step s /\
  simulationResult (replay (effects (adminClick trim (fabricData s) a c) s) s)
    = simulationResult s.
Proof.
  destruct c as [now|cid name now|cid pid name hex now];
    unfold catalog_step, effects, final, run; simpl.
  - unfold handleAddCompany. destruct (trim (newItemName a) =? "");
      repeat split.
  - unfold handleAddProduct. destruct name as [name|]; [|repeat split].
    destruct (name =? ""); [repeat split|]. simpl.
    destruct (find _ _); repeat split.
  - unfold handleAddColor. destruct (falsy name) eqn:Hn; [repeat split|].
    destruct (falsy hex) eqn:Hh; [repeat split|].
    destruct name as [name|]; [|discriminate].
    destruct hex as [hex|]; [|discriminate]. simpl.
    destruct (find _ _) as [c|]; simpl; [|repeat split].
    destruct (find _ _); repeat split.
Qed.

Lemma panelControls_cells s type sel :
  panelControls s = Some (type, sel) ->
  productType s = Some type /\ manualSelection s = Some sel.
Proof.
  unfold panelControls, renderContent.
  destruct (isLoading s); [discriminate|].
  destruct (step s); try discriminate.
  destruct (productType s) as [t|]; [|discriminate].
  destruct (manualSelection s) as [sl|]; [|discriminate].
  destruct (companies _ _); [discriminate|].
  now intros [= -> ->].
Qed.

(** Every event, handled up to its first request, leaves a sound session,
    and what it leaves waiting is harmless. *)
Lemma dispatch_sound trim s ev :
  sound s = true ->
  sound (replay (fst (cut (effects (dispatch trim s ev) s))) s) = true /\
  tail_ok false false (snd (cut (effects (dispatch trim s ev) s))) = true.
Proof.
  intros Hs. unfold dispatch.
  destruct (enabled s ev) eqn:He; [|now split].
  destruct ev as [c|file|type|service mode|service|key v|style|view|a click];
    simpl handler.
  - (* Click *)
    apply quiet_sound.
    + destruct c; try reflexivity. simpl. unfold effects, run, handleBack.
      now destruct (step s).
    + apply sound_parts in Hs as (H1 & H2 & H3). apply sound_parts.
      unfold selection_ok, result_ok in *.
      destruct c; simpl; try (now repeat split);
        try (repeat split; trivial; now destruct (step s)).
      unfold effects, run, handleBack.
      destruct (step s) eqn:Est; simpl; try rewrite Est; now repeat split.
  - (* ImageAcquired *)
    apply quiet_sound; [reflexivity|].
    apply sound_parts in Hs as (H1 & H2 & H3). apply sound_parts.
    unfold selection_ok, result_ok in *. simpl. now repeat split.
  - (* ProductTypeChosen *)
    pose proof Hs as Hs'. apply sound_parts in Hs' as (H1 & H2 & H3).
    destruct (headed_first (bucket (fabricData s) type)
                (seeded_bucket _ type H1))
      as (c & p & col & Hc & Hp & Hcol).
    destruct (handleProductSelect_first s type c p col Hc Hp Hcol)
      as (_ & -> & _).
    apply quiet_sound; [reflexivity|].
    apply sound_parts. unfold selection_ok, result_ok. simpl.
    repeat split; trivial.
    now apply first_triple_resolves.
  - (* ModeChosen *)
    destruct mode.
    + apply quiet_sound; [reflexivity|].
      apply sound_parts in Hs as (H1 & H2 & H3). apply sound_parts.
      unfold selection_ok, result_ok in *. simpl. now repeat split.
    + rewrite (proj1 (handleModeSelect_auto_log service s)).
      apply (cut_sound _ false false); trivial; try discriminate.
      simpl. apply auto_log_tail_ok.
  - (* SimulateNow *)
    apply (cut_sound _ false false); trivial; try discriminate.
    apply manual_log_tail_ok.
  - (* OptionChosen *)
    simpl in He.
    destruct (panelControls s) as [[type sel]|] eqn:Hpanel; [|discriminate].
    destruct (panelControls_cells s type sel Hpanel) as [Ht Hsel].
    rewrite Ht, Hsel.
    destruct (newSelection (fabricData s) type sel key v) as [sel'|e] eqn:Hnew.
    + destruct (handleSelectionChange_ok _ _ _ _ _ _ s Hnew) as [_ ->].
      apply quiet_sound; [reflexivity|].
      apply sound_parts in Hs as (H1 & H2 & H3). apply sound_parts.
      unfold selection_ok, result_ok in *. simpl. rewrite Ht.
      repeat split; trivial.
      now apply (newSelection_resolves _ _ sel key v).
    + assert (Hlog : effects (handleSelectionChange (fabricData s) type sel
                                key v) s = []).
      { unfold effects, run, handleSelectionChange. simpl. unfold lift.
        now rewrite Hnew. }
      rewrite Hlog. now split.
  - (* CurtainStyleChosen *)
    apply quiet_sound; [reflexivity|].
    apply sound_parts in Hs as (H1 & H2 & H3). apply sound_parts.
    unfold selection_ok, result_ok in *. simpl. now repeat split.
  - (* ViewChosen *)
    apply quiet_sound; [reflexivity|].
    apply sound_parts in Hs as (H1 & H2 & H3). apply sound_parts.
    unfold selection_ok, result_ok in *. simpl. now repeat split.
  - (* AdminClicked *)
    destruct (adminClick_replay trim s a click)
      as (Hq & Hfd & Hpt & Hms & Hst & Hres).
    apply quiet_sound; [exact Hq|].
    apply sound_parts in Hs as (H1 & H2 & H3). apply sound_parts.
    unfold selection_ok, result_ok in *.
    rewrite Hfd, Hpt, Hms, Hst, Hres. repeat split; trivial.
    + now apply catalog_step_seeded.
    + destruct (manualSelection s) as [sel|]; [|reflexivity].
      destruct (productType s) as [type|]; [|discriminate].
      apply (resolves_grows (fabricData s)); trivial.
      apply catalog_step_grows.
Qed.

Lemma Forall_firstn {A} (P : A -> Prop) n (l : list A) :
  Forall P l -> Forall P (firstn n l).
Proof.
  intros H. revert n. induction H; intros [|n]; simpl; constructor; auto.
Qed.

Lemma Forall_skipn {A} (P : A -> Prop) n (l : list A) :
  Forall P l -> Forall P (skipn n l).
Proof.
  intros H. revert n. induction H; intros [|n]; simpl; auto.
Qed.

Lemma app_step_sound trim st step :
  app_sound st -> app_sound (app_step trim st step).
Proof.
  intros [Hs Hruns]. destruct step as [ev|i]; simpl.
  - destruct (dispatch_sound trim (shown st) ev Hs) as [Hs' Hrest].
    destruct (cut _) as [seg rest]. simpl in *. split; [exact Hs'|].
    apply Forall_app. split; [exact Hruns|].
    destruct rest; constructor; [exact Hrest|constructor].
  - destruct (nth_error (inflight st) i) as [log|] eqn:Hi; [|now split].
    assert (Hlog : tail_ok false false log = true).
    { apply nth_error_In in Hi.
      exact (proj1 (Forall_forall _ _) Hruns log Hi). }
    destruct (cut_sound log false false (shown st) Hlog Hs) as [Hs' Hrest];
      try discriminate.
    destruct (cut log) as [seg rest]. simpl in *. split; [exact Hs'|].
    unfold requeue. apply Forall_app. split; [now apply Forall_firstn|].
    apply Forall_app. split; [|now apply Forall_skipn].
    destruct rest; constructor; [exact Hrest|constructor].
Qed.

Lemma app_run_sound trim steps : app_sound (app_run trim steps).
Proof.
  unfold app_run.
  assert (H0 : app_sound (mkApp initialSession [])) by (split; [reflexivity|constructor]).
  revert H0. generalize (mkApp initialSession []).
  induction steps as [|step steps IH]; intros st Hst; simpl; [exact Hst|].
  apply IH, app_step_sound, Hst.
Qed.

(** Through every interleaving of user events and settlements, the manual
    selection, whenever there is one, goes with a product type and resolves
    in that type's bucket of the current catalog. *)
Theorem reachable_selection_resolves trim steps :
  selection_ok (shown (app_run trim steps)) = true.
Proof.
  destruct (app_run_sound trim steps) as [Hs _].
  now apply sound_parts in Hs.
Qed.

(** Through every interleaving of user events and settlements, the step is
    result only while a simulation result is stored: the result view is
    never rendered without a result to read. *)
Theorem result_screen_has_result trim steps :
  result_ok (shown (app_run trim steps)) = true /\
  forall originalImg view,
    renderContent (shown (app_run trim steps))
      <> ResultViewScreen None originalImg view.
Proof.
  destruct (app_run_sound trim steps) as [Hs _].
  apply sound_parts in Hs as (_ & _ & Hr). split; [exact Hr|].
  intros originalImg view. unfold renderContent, result_ok in *.
  destruct (isLoading _); [discriminate|].
  destruct (step _); try discriminate.
  - destruct (productType _); [destruct (manualSelection _)|]; discriminate.
  - destruct (simulationResult _); discriminate.
Qed.

(** In every state the application can reach, selecting a product type
    succeeds: the handler does not throw, and the selection it stores
    resolves. *)
Theorem product_select_never_throws trim steps type :
  outcome (handleProductSelect (shown (app_run trim steps)) type)
          (shown (app_run trim steps)) = Ok tt /\
  match manualSelection
          (final (handleProductSelect (shown (app_run trim steps)) type)
                 (shown (app_run trim steps))) with
  | Some sel => resolves (fabricData (shown (app_run trim steps))) type sel = true
  | None => False
  end.
Proof.
  destruct (app_run_sound trim steps) as [Hs _].
  apply sound_parts in Hs as (H1 & _ & _).
  destruct (headed_first (bucket (fabricData (shown (app_run trim steps))) type)
              (seeded_bucket _ type H1))
    as (c & p & col & Hc & Hp & Hcol).
  destruct (handleProductSelect_first _ type c p col Hc Hp Hcol)
    as (Ho & _ & ->).
  split; [exact Ho|]. now apply first_triple_resolves.
Qed.

(** In every state the application can reach, when the "Simulate Now"
    button is on screen the selection behind it resolves, so pressing it
    never takes the "Could not find product details." branch: if an image
    is stored the run sends its day composite request, and if none is the
    press has no effect at all. *)
Theorem simulate_now_never_unresolved trim steps service :
  enabled (shown (app_run trim steps)) (SimulateNow service) = true ->
  (forall file,
      uploadedFile (shown (app_run trim steps)) = Some file ->
      exists r rest,
        issued (effects (runManualSimulation service
                           (shown (app_run trim steps)))
                        (shown (app_run trim steps))) = r :: rest /\
        kind r = DayComposite) /\
  (uploadedFile (shown (app_run trim steps)) = None ->
   effects (runManualSimulation service (shown (app_run trim steps)))
           (shown (app_run trim steps)) = []).
Proof.
  intros He. simpl in He.
  destruct (panelControls _) as [[type sel]|] eqn:Hpanel; [|discriminate].
  destruct (panelControls_cells _ type sel Hpanel) as [Ht Hsel].
  destruct (app_run_sound trim steps) as [Hs _].
  apply sound_parts in Hs as (_ & Hok & _).
  unfold selection_ok in Hok. rewrite Hsel, Ht in Hok.
  split.
  - intros file Hfile.
    destruct (manual_log_cases service (shown (app_run trim steps)))
      as [H|file' type' sel' Hf Ht' Hs' Hres|file' type' c p msg Hd
          |file' type' c p img msg Hd Hn|file' type' c p img img' Hd Hn].
    + destruct H as [H|[H|H]]; congruence.
    + congruence.
    + now eexists _, _.
    + now eexists _, _.
    + now eexists _, _.
  - intros Hnone. apply manual_log_absent. now left.
Qed.

Lemma simulate_now_never_unresolved_witness :
  exists r rest,
    issued (effects
              (runManualSimulation (geminiService ai_answers)
                 (shown (app_run (fun s => s)
                           [User (ImageAcquired
                                    (UploadedFile.mk "aGVsbG8=" "window.jpg"
                                                     "image/jpeg"));
                            User (ProductTypeChosen RollerBlinds);
                            User (OptionChosen KFabricCompanyId "rb-fc2")])))
              (shown (app_run (fun s => s)
                        [User (ImageAcquired
                                 (UploadedFile.mk "aGVsbG8=" "window.jpg"
                                                  "image/jpeg"));
                         User (ProductTypeChosen RollerBlinds);
                         User (OptionChosen KFabricCompanyId "rb-fc2")])))
      = r :: rest /\
    kind r = DayComposite.
Proof.
  apply (proj1 (simulate_now_never_unresolved (fun s => s)
                  [User (ImageAcquired
                           (UploadedFile.mk "aGVsbG8=" "window.jpg"
                                            "image/jpeg"));
                   User (ProductTypeChosen RollerBlinds);
                   User (OptionChosen KFabricCompanyId "rb-fc2")]
                  (geminiService ai_answers) eq_refl)
           (UploadedFile.mk "aGVsbG8=" "window.jpg" "image/jpeg")).
  reflexivity.
Defined.

(** Every value the selection controls of the configuration panel can
    deliver either makes the handler throw, storing nothing, or makes it
    store a triple that resolves in the catalog; a throw can only come from
    a company without products or a product without colors. *)
Theorem offered_choice_resolves fd t sel key v s :
  offered fd t sel key v = true ->
  (exists sel',
      outcome (handleSelectionChange fd t sel key v) s = Ok tt /\
      effects (handleSelectionChange fd t sel key v) s
        = [SetManualSelection (Some sel')] /\
      resolves fd t sel' = true)
  \/
  (outcome (handleSelectionChange fd t sel key v) s = Throw (TypeError "id") /\
   effects (handleSelectionChange fd t sel key v) s = [] /\
   key <> KColorId).
Proof.
  intros Hoff.
  destruct (newSelection fd t sel key v) as [sel'|e] eqn:Hnew.
  - left. exists sel'.
    destruct (handleSelectionChange_ok fd t sel key v sel' s Hnew) as [Ho He].
    repeat split; trivial.
    now apply (newSelection_resolves fd t sel key v).
  - right.
    assert (He : e = TypeError "id" /\ key <> KColorId).
    { revert Hoff Hnew. destruct key; unfold offered, newSelection; simpl.
      - intros Hmem.
        destruct (mem_find FabricCompany.id v (companies fd t) Hmem)
          as [c ->]. simpl.
        destruct (first (FabricCompany.products c)) as [p|]; simpl;
          [|intros [= <-]; split; [reflexivity|discriminate]].
        destruct (first (Product.colors p)); simpl; [discriminate|].
        intros [= <-]. split; [reflexivity|discriminate].
      - destruct (selectedCompany fd t sel) as [c|]; [|discriminate].
        intros Hmem. simpl.
        destruct (mem_find Product.id v (FabricCompany.products c) Hmem)
          as [p ->]. simpl.
        destruct (first (Product.colors p)); simpl; [discriminate|].
        intros [= <-]. split; [reflexivity|discriminate].
      - discriminate. }
    destruct He as [-> Hkey].
    unfold outcome, effects, run, handleSelectionChange. simpl. unfold lift.
    rewrite Hnew. now repeat split.
Qed.

Lemma offered_choice_resolves_witness :
  exists sel',
    effects (handleSelectionChange MOCK_DATA RollerBlinds
               (mkSelection "rb-fc1" "rb-p1" "rb-c1") KProductId "rb-p2")
            initialSession = [SetManualSelection (Some sel')] /\
    resolves MOCK_DATA RollerBlinds sel' = true.
Proof.
  destruct (offered_choice_resolves MOCK_DATA RollerBlinds
              (mkSelection "rb-fc1" "rb-p1" "rb-c1") KProductId "rb-p2"
              initialSession eq_refl)
    as [(sel' & _ & He & Hr)|(Ho & _)].
  - now exists sel'.
  - discriminate Ho.
Defined.

(** While the loading flag is set, the only things that respond are the
    header's title (reset) and cog (admin), the dismiss button of an error
    alert, and a file read that completes: every other control is off
    screen. *)
Theorem loading_disables_controls s ev :
  isLoading s = true ->
  enabled s ev = true ->
  match ev with
  | Click HeaderTitle | Click HeaderCog | Click AlertDismiss
  | ImageAcquired _ => True
  | _ => False
  end.
Proof.
  intros Hl.
  destruct ev as [c|file|type|service mode|service|key v|style|view|a click];
    simpl; unfold panelControls, renderContent, shouldShowBackButton,
             shouldShowResetButton; rewrite ?Hl; simpl;
    try discriminate; trivial.
  destruct c; simpl; unfold shouldShowBackButton, shouldShowResetButton;
    rewrite ?Hl, ?andb_false_r; simpl; try discriminate; trivial.
Qed.

Lemma loading_disables_controls_witness :
  enabled mid_run (Click HeaderTitle) = true /\ True.
Proof.
  split; [reflexivity|].
  apply (loading_disables_controls mid_run (Click HeaderTitle));
    reflexivity.
Defined.

(** A reset during a run does not cancel it.  When a manual run whose two
    composites will resolve is started from the configuration panel, the
    title is clicked while the day composite is outstanding, and the two
    requests then settle, the application ends on the result step with the
    run's images stored but with no uploaded image, product type or
    selection: the result view is rendered over an original image built
    from [undefined]. *)
Theorem reset_does_not_cancel_run trim s service file type sel p c img img' :
  enabled s (SimulateNow service) = true ->
  uploadedFile s = Some file ->
  productType s = Some type ->
  manualSelection s = Some sel ->
  selectedProduct (fabricData s) type sel = Some p ->
  find (fun c => Color.id c =? colorId sel) (Product.colors p) = Some c ->
  service (manualRequest s file type c p true) = Resolved img ->
  service (manualRequest s file type c p false) = Resolved img' ->
  shown (fold_left (app_step trim)
           [User (SimulateNow service); User (Click HeaderTitle);
            Settle 0; Settle 0]
           (mkApp s []))
    = mkSession result None None None None
        (Some (mkResult (Some img) (Some img') None))
        false "Simulating nighttime view..." None day (fabricData s)
        (curtainStyle s) /\
  inflight (fold_left (app_step trim)
              [User (SimulateNow service); User (Click HeaderTitle);
               Settle 0; Settle 0]
              (mkApp s []))
    = [] /\
  renderContent
    (shown (fold_left (app_step trim)
              [User (SimulateNow service); User (Click HeaderTitle);
               Settle 0; Settle 0]
              (mkApp s [])))
    = ResultViewScreen (Some (mkResult (Some img) (Some img') None))
        "data:undefined;base64,undefined" day.
Proof.
  intros He Hf Ht Hs Hp Hc Hday Hnight.
  pose proof (manual_log_success service s file type sel
                Hf Ht Hs p c Hp Hc img img' Hday Hnight) as Hlog.
  assert (H1 :
    app_step trim (mkApp s []) (User (SimulateNow service))
    = mkApp
        (replay [SetIsLoading true; SetStep simulate; SetSimulationResult None;
                 SetLoadingText "Simulating daytime view...";
                 Issued (manualRequest s file type c p true)] s)
        [[Settled (manualRequest s file type c p true) (Resolved img);
          SetLoadingText "Simulating nighttime view...";
          Issued (manualRequest s file type c p false);
          Settled (manualRequest s file type c p false) (Resolved img');
          SetSimulationResult (Some (mkResult (Some img) (Some img') None));
          SetStep result; SetActiveResultView day; SetIsLoading false]]).
  { unfold app_step, dispatch. cbn [shown inflight]. rewrite He.
    cbn [handler]. rewrite Hlog. reflexivity. }
  cbn [fold_left]. rewrite H1. repeat split.
Qed.

Lemma reset_does_not_cancel_run_witness :
  step (shown (fold_left (app_step (fun s => s))
                 [User (SimulateNow (geminiService ai_answers));
                  User (Click HeaderTitle); Settle 0; Settle 0]
                 (mkApp configured [])))
    = result /\
  uploadedFile (shown (fold_left (app_step (fun s => s))
                         [User (SimulateNow (geminiService ai_answers));
                          User (Click HeaderTitle); Settle 0; Settle 0]
                         (mkApp configured [])))
    = None.
Proof.
  destruct (reset_does_not_cancel_run (fun s => s) configured
              (geminiService ai_answers) _ _ _ _ _ _ _
              eq_refl eq_refl eq_refl eq_refl eq_refl eq_refl eq_refl eq_refl)
    as (Hshown & _ & _).
  rewrite Hshown. split; reflexivity.
Defined.

(** The configuration panel can be reached with no uploaded image.  After
    an image is acquired, a product type chosen and a manual run started,
    a click on the title while the day composite is outstanding, the
    rejection of that composite, a click on back and a second choice of the
    product type leave the panel on screen without an image; from there
    neither "Simulate Now" nor the AI recommendation sends a request or
    shows anything. *)
Theorem stranded_configuration_panel trim :
  exists steps,
    renderContent (shown (app_run trim steps))
      = ConfigurationPanelScreen Curtains (mkSelection "c-fc1" "c-p1" "c-c1") /\
    uploadedFile (shown (app_run trim steps)) = None /\
    inflight (app_run trim steps) = [] /\
    forall service,
      enabled (shown (app_run trim steps)) (SimulateNow service) = true /\
      app_step trim (app_run trim steps) (User (SimulateNow service))
        = app_run trim steps /\
      enabled (shown (app_run trim steps)) (ModeChosen service Auto) = true /\
      effects (dispatch trim (shown (app_run trim steps))
                 (ModeChosen service Auto))
              (shown (app_run trim steps))
        = [SetSimulationMode (Some Auto)].
Proof.
  exists [User (ImageAcquired
                  (UploadedFile.mk "aGVsbG8=" "window.jpg" "image/jpeg"));
          User (ProductTypeChosen Curtains);
          User (SimulateNow (geminiService ai_day_fails));
          User (Click HeaderTitle);
          Settle 0;
          User (Click BackButton);
          User (ProductTypeChosen Curtains)].
  repeat split.
Qed.

(** A handler writes the session through its setters only: the session it
    leaves is the one it was started in with its logged setters applied in
    order.  This is what lets a step of the transition system replay a
    log. *)
Lemma dispatch_final_replay trim s ev :
  final (dispatch trim s ev) s = replay (effects (dispatch trim s ev) s) s.
Proof.
  unfold dispatch. destruct (enabled s ev); [|reflexivity].
  destruct ev as [c|file|type|service mode|service|key v|style|view|a click];
    simpl handler; try reflexivity.
  - destruct c; try reflexivity. simpl.
    unfold final, effects, run, handleBack. now destruct (step s).
  - unfold final, effects, run, handleProductSelect. simpl.
    destruct (bucket (fabricData s) type) as [|c r]; [reflexivity|]. simpl.
    destruct (first (FabricCompany.products c)) as [p|]; [|reflexivity]. simpl.
    destruct (first (Product.colors p)); reflexivity.
  - destruct mode; [reflexivity|].
    destruct (handleModeSelect_auto_log service s) as (-> & ->).
    reflexivity.
  - apply manual_final_replay.
  - destruct (productType s) as [type|]; [|reflexivity].
    destruct (manualSelection s) as [sel|]; [|reflexivity].
    unfold final, effects, run, handleSelectionChange. simpl. unfold lift.
    destruct (newSelection _ _ _ _ _); reflexivity.
  - destruct click as [now|cid name now|cid pid name hex now];
      unfold final, effects, run; simpl.
    + unfold handleAddCompany. now destruct (trim (newItemName a) =? "").
    + unfold handleAddProduct. destruct name as [name|]; [|reflexivity].
      destruct (name =? ""); [reflexivity|]. simpl.
      now destruct (find _ _).
    + unfold handleAddColor. destruct (falsy name); [reflexivity|].
      destruct (falsy hex); [reflexivity|].
      destruct name as [name|]; [|reflexivity].
      destruct hex as [hex|]; [|reflexivity]. simpl.
      destruct (find _ _) as [c|]; simpl; [|reflexivity].
      now destruct (find _ _).
Qed.

(** ** The loader during an uninterrupted run *)

Lemma settle_idle trim st k :
  inflight st = [] ->
  fold_left (app_step trim) (repeat (Settle 0) k) st = st.
Proof.
  intros H. induction k as [|k IH]; simpl; [reflexivity|].
  now rewrite H.
Qed.

Lemma start_run trim s ev :
  app_step trim (mkApp s []) (User ev)
  = mkApp (replay (fst (cut (effects (dispatch trim s ev) s))) s)
          (match snd (cut (effects (dispatch trim s ev) s)) with
           | [] => []
           | _ :: _ => [snd (cut (effects (dispatch trim s ev) s))]
           end).
Proof.
  unfold app_step. cbn [shown inflight].
  now destruct (cut (effects (dispatch trim s ev) s)).
Qed.

Lemma settle_one trim s' log :
  app_step trim (mkApp s' [log]) (Settle 0)
  = mkApp (replay (fst (cut log)) s')
          (match snd (cut log) with
           | [] => []
           | _ :: _ => [snd (cut log)]
           end).
Proof.
  unfold app_step, requeue. cbn [shown inflight nth_error].
  destruct (cut log) as [seg rest]. cbn [fst snd firstn skipn app].
  now destruct rest.
Qed.

Ltac past_the_end k :=
  let E := fresh "E" in
  assert (E : nth_error (@nil Request) k = None) by (now destruct k);
  rewrite E; clear E.

(* Follow a run settlement by settlement, to its end. *)
Ltac walk k :=
  first
    [ past_the_end k; rewrite settle_idle by reflexivity; split; reflexivity
    | destruct k as [|k]; cbn [nth_error repeat fold_left];
      [ split; [eexists; eexists; reflexivity
               | repeat (split; [reflexivity|]); reflexivity]
      | rewrite settle_one; cbn [cut fst snd]; walk k ] ].

(** Only the two runs send requests. *)
Lemma quiet_event trim s ev :
  match ev with
  | SimulateNow _ | ModeChosen _ Auto => False
  | _ => True
  end ->
  issued (effects (dispatch trim s ev) s) = [].
Proof.
  intros Hev. unfold dispatch. destruct (enabled s ev); [|reflexivity].
  destruct ev as [c|file|type|service mode|service|key v|style|view|a click];
    simpl handler; try reflexivity; try contradiction.
  - destruct c; try reflexivity. simpl. unfold effects, run, handleBack.
    now destruct (step s).
  - unfold effects, run, handleProductSelect. simpl.
    destruct (bucket (fabricData s) type) as [|c r]; [reflexivity|]. simpl.
    destruct (first (FabricCompany.products c)) as [p|]; [|reflexivity]. simpl.
    destruct (first (Product.colors p)); reflexivity.
  - destruct mode; [reflexivity|contradiction].
  - destruct (productType s) as [type|]; [|reflexivity].
    destruct (manualSelection s) as [sel|]; [|reflexivity].
    unfold effects, run, handleSelectionChange. simpl. unfold lift.
    destruct (newSelection _ _ _ _ _); reflexivity.
  - apply adminClick_replay.
Qed.

Lemma quiet_settlements trim s ev k :
  issued (effects (dispatch trim s ev) s) = [] ->
  nth_error (issued (effects (dispatch trim s ev) s)) k = None /\
  after_settlements trim s ev k = mkApp (final (dispatch trim s ev) s) [].
Proof.
  intros Hq. rewrite Hq. split; [now destruct k|].
  unfold after_settlements. cbn [fold_left]. rewrite start_run.
  rewrite (cut_quiet _ Hq). cbn [fst snd].
  rewrite settle_idle by reflexivity.
  now rewrite dispatch_final_replay.
Qed.

(** A run that nothing interrupts: from a session with no run waiting,
    one user event and then [k] settlements, nothing else being handled in
    between.  If the event's handler sends a [k]-th request (counting from
    0), that request is then the one outstanding, the loader is on screen
    with the label of that request's stage, the step is [simulate], and
    neither the back nor the start-over button is shown.  If it sends
    fewer, nothing is outstanding any more and the session is the one the
    handler ends in. *)
Theorem loader_during_uninterrupted_run trim s ev k :
  match nth_error (issued (effects (dispatch trim s ev) s)) k with
  | Some r =>
      (exists o rest,
          inflight (after_settlements trim s ev k) = [Settled r o :: rest]) /\
      renderContent (shown (after_settlements trim s ev k))
        = LoaderScreen (stageLabel (kind r)) /\
      step (shown (after_settlements trim s ev k)) = simulate /\
      shouldShowBackButton (shown (after_settlements trim s ev k)) = false /\
      shouldShowResetButton (shown (after_settlements trim s ev k)) = false
  | None =>
      inflight (after_settlements trim s ev k) = [] /\
      shown (after_settlements trim s ev k) = final (dispatch trim s ev) s
  end.
Proof.
  assert (Hquiet :
    issued (effects (dispatch trim s ev) s) = [] ->
    match nth_error (issued (effects (dispatch trim s ev) s)) k with
    | Some r =>
        (exists o rest,
            inflight (after_settlements trim s ev k) = [Settled r o :: rest]) /\
        renderContent (shown (after_settlements trim s ev k))
          = LoaderScreen (stageLabel (kind r)) /\
        step (shown (after_settlements trim s ev k)) = simulate /\
        shouldShowBackButton (shown (after_settlements trim s ev k)) = false /\
        shouldShowResetButton (shown (after_settlements trim s ev k)) = false
    | None =>
        inflight (after_settlements trim s ev k) = [] /\
        shown (after_settlements trim s ev k) = final (dispatch trim s ev) s
    end).
  { intros Hq. destruct (quiet_settlements trim s ev k Hq) as [-> ->].
    now split. }
  destruct ev as [c|file|type|service mode|service|key v|style|view|a click];
    try (apply Hquiet; apply quiet_event; exact I).
  - (* ModeChosen *)
    destruct mode; [apply Hquiet; apply quiet_event; exact I|]. clear Hquiet.
    unfold after_settlements. cbn [fold_left]. rewrite start_run.
    rewrite dispatch_final_replay.
    unfold dispatch. destruct (enabled s (ModeChosen service Auto));
      [|change (effects (ret tt) s) with (@nil Effect);
        cbn [cut fst snd issued flat_map]; walk k].
    cbn [handler]. rewrite (proj1 (handleModeSelect_auto_log service s)).
    destruct (auto_log_cases service s);
      cbn [cut fst snd issued flat_map Datatypes.app]; walk k.
  - (* SimulateNow *)
    clear Hquiet.
    unfold after_settlements. cbn [fold_left]. rewrite start_run.
    rewrite dispatch_final_replay.
    unfold dispatch. destruct (enabled s (SimulateNow service));
      [|change (effects (ret tt) s) with (@nil Effect);
        cbn [cut fst snd issued flat_map]; walk k].
    cbn [handler].
    destruct (manual_log_cases service s);
      cbn [cut fst snd issued flat_map Datatypes.app]; walk k.
Qed.
